(** * The dual-stream encoder of [mmf/models/multitaskvilbert.py]

    A shallow embedding of the fusion scheduler ([BertEncoder]), of the
    bidirectional fusion block ([BertBiAttention], [BertBiOutput],
    [BertConnectionLayer]), of the mask construction and pooling of
    [ViLBERTBase.forward] and of the pooled-vector combination of
    [ViLBERTExpert.forward] and [BertPreTrainingHeads.forward].

    Conventions of the embedding.
    - A tensor is the list of its slices along the batch axis.  Embedding
      tensors have slices of an abstract type [Slice]; masks are numeric and
      concrete ([Z] entries: the values the code produces on them, 0, 1,
      -10000 and multiples of 5, are exact in every floating-point dtype).
    - The learned sub-modules ([nn.Linear], [LayerNorm], softmax, dropout in a
      fixed mode, ...) are fields of records or members of [TensorOps]: what
      the code computes with them is kept, their arithmetic is not.
    - Python exceptions are the [Raise] results of [result].
    - [calls] is a ghost log: every invocation of a layer of the three stacks
      appends one entry, in program order.  Nothing reads it. *)

From stdpp Require Import base list numbers strings.
From Stdlib Require Import ZArith Lia Floats.

#[local] Open Scope Z_scope.

(** ** Exceptions *)

Inductive exn : Set :=
| AssertionError
| RuntimeError
| ValueError
| ZeroDivisionError
| IndexError.

Inductive result (A : Type) : Type :=
| Ok (a : A)
| Raise (e : exn).
Arguments Ok {A} a.
Arguments Raise {A} e.

#[export] Instance result_ret : MRet result := λ A a, Ok a.
#[export] Instance result_bind : MBind result :=
  λ A B f r, match r with Ok a => f a | Raise e => Raise e end.

#[export] Instance result_fmap : FMap result :=
  λ A B f r, match r with Ok a => Ok (f a) | Raise e => Raise e end.

Definition is_ok {A} (r : result A) : bool :=
  match r with Ok _ => true | Raise _ => false end.

(** ** Tensor operations on the leading axes *)

Module Tensor.

(** [x.expand(n, ...)] seen on one axis: a size that already is [n] stays,
    a singleton axis is repeated, anything else is a RuntimeError. *)
Definition expand_axis {A : Type} (n : nat) (x : list A) : result (list A) :=
  if decide (length x = n) then Ok x
  else match x with
       | [a] => Ok (replicate n a)
       | _ => Raise RuntimeError
       end.

(** [x.unsqueeze(0)]: one outer slice, the whole of [x]. *)
Definition unsqueeze0 {A : Type} (x : list A) : list (list A) := [x].

(** [x.unsqueeze(1)]: every slice becomes a singleton axis. *)
Definition unsqueeze1 {A : Type} (x : list A) : list (list A) :=
  (λ a, [a]) <$> x.

(** [x.expand(n, m, ...)] on the two leading axes. *)
Definition expand2 {A : Type} (n m : nat) (x : list (list A))
    : result (list (list A)) :=
  match mapM (M := result) (expand_axis m) x with
  | Ok rows => expand_axis n rows
  | Raise e => Raise e
  end.

Definition contiguous {A : Type} (x : list (list A)) : list (list A) := x.

(** [x.view(n * m, ...)] of a contiguous tensor whose leading axes are
    [n] and [m]: row-major merge of the two axes. *)
Definition view_merge {A : Type} (x : list (list A)) : list A := mjoin x.

End Tensor.

(** ** Tensors and the primitive operations the modules are built from *)

Abbreviation Mask := (list (list Z)).
Abbreviation CoMask := (list (list (list Z))).

Class TensorOps (Slice : Type) := {
  matmul : list Slice → list Slice → list Slice;
  transpose_last : list Slice → list Slice;
  div_sqrt : Z → list Slice → list Slice;
  add : list Slice → list Slice → list Slice;
  mul : list Slice → list Slice → list Slice;
  add_mask : list Slice → Mask → list Slice;
  softmax : list Slice → list Slice;
  first_token : list Slice → list Slice;
  cat_last : Slice → Slice → Slice;
}.

Section Model.
Context {Slice : Type} `{!TensorOps Slice}.

#[local] Abbreviation Emb := (list Slice).

(** The "attn" entry of the diagnostics dict of a self-attention layer: present
    exactly when the layer was built with [visualization]. *)
#[local] Abbreviation AttnData := (option Emb).

(** ** Self-attention layers *)

(** [BertLayer]: its [forward] is learned arithmetic. *)
Record BertLayer := {
  forward : Emb → Mask → Emb * AttnData;
}.

(** [forward_no_grad] is [forward] under [torch.no_grad()]. *)
Definition forward_no_grad (l : BertLayer) (hidden_states : Emb)
    (attention_mask : Mask) : Emb * AttnData :=
  forward l hidden_states attention_mask.

(** [BertImageLayer]: the text stream enters [BertImageSelfAttention.forward]
    only through the gates, and only when [dynamic_attention] is set. *)
Record BertImageLayer := {
  dynamic_attention : bool;
  gates : Emb → Mask → Emb;
  attend : option Emb → Emb → Mask → Emb * AttnData;
}.

Definition v_forward (l : BertImageLayer) (hidden_states : Emb)
    (attention_mask : Mask) (txt_embedding : Emb) (txt_attention_mask : Mask)
    : Emb * AttnData :=
  attend l
    (if dynamic_attention l then Some (gates l txt_embedding txt_attention_mask)
     else None)
    hidden_states attention_mask.

Definition v_forward_no_grad (l : BertImageLayer) (hidden_states : Emb)
    (attention_mask : Mask) (txt_embedding : Emb) (txt_attention_mask : Mask)
    : Emb * AttnData :=
  v_forward l hidden_states attention_mask txt_embedding txt_attention_mask.

(** ** The bidirectional fusion block *)

Record BertBiAttention := {
  bi_visualization : bool;
  attention_head_size : Z;
  transpose_for_scores : Emb → Emb;
  merge_heads : Emb → Emb;
  query1 : Emb → Emb; key1 : Emb → Emb; value1 : Emb → Emb;
  query2 : Emb → Emb; key2 : Emb → Emb; value2 : Emb → Emb;
  bi_dropout1 : Emb → Emb; bi_dropout2 : Emb → Emb;
}.

(** The "attn1" and "attn2" entries of the diagnostics dict. *)
#[local] Abbreviation CoAttnData := (option (Emb * Emb)).

Definition BertBiAttention_forward (m : BertBiAttention)
    (input_tensor1 : Emb) (attention_mask1 : Mask)
    (input_tensor2 : Emb) (attention_mask2 : Mask)
    (co_attention_mask : option CoMask) (use_co_attention_mask : bool)
    : Emb * Emb * CoAttnData :=
  let query_layer1 := transpose_for_scores m (query1 m input_tensor1) in
  let key_layer1 := transpose_for_scores m (key1 m input_tensor1) in
  let value_layer1 := transpose_for_scores m (value1 m input_tensor1) in
  let query_layer2 := transpose_for_scores m (query2 m input_tensor2) in
  let key_layer2 := transpose_for_scores m (key2 m input_tensor2) in
  let value_layer2 := transpose_for_scores m (value2 m input_tensor2) in
  let attention_scores1 := matmul query_layer2 (transpose_last key_layer1) in
  let attention_scores1 := div_sqrt (attention_head_size m) attention_scores1 in
  let attention_scores1 := add_mask attention_scores1 attention_mask1 in
  let attention_probs1 := softmax attention_scores1 in
  let attention_probs1 := bi_dropout1 m attention_probs1 in
  let context_layer1 := merge_heads m (matmul attention_probs1 value_layer1) in
  let attention_scores2 := matmul query_layer1 (transpose_last key_layer2) in
  let attention_scores2 := div_sqrt (attention_head_size m) attention_scores2 in
  let attention_scores2 := add_mask attention_scores2 attention_mask2 in
  let attention_probs2 := softmax attention_scores2 in
  let attention_probs2 := bi_dropout2 m attention_probs2 in
  let context_layer2 := merge_heads m (matmul attention_probs2 value_layer2) in
  let attn_data :=
    if bi_visualization m then Some (attention_probs1, attention_probs2)
    else None in
  (context_layer1, context_layer2, attn_data).

Record BertBiOutput := {
  dense1 : Emb → Emb; LayerNorm1 : Emb → Emb; dropout1 : Emb → Emb;
  dense2 : Emb → Emb; LayerNorm2 : Emb → Emb; dropout2 : Emb → Emb;
}.

Definition BertBiOutput_forward (m : BertBiOutput)
    (hidden_states1 input_tensor1 hidden_states2 input_tensor2 : Emb)
    : Emb * Emb :=
  let context_state1 := dropout1 m (dense1 m hidden_states1) in
  let context_state2 := dropout2 m (dense2 m hidden_states2) in
  (LayerNorm1 m (add context_state1 input_tensor1),
   LayerNorm2 m (add context_state2 input_tensor2)).

Record BertConnectionLayer := {
  biattention : BertBiAttention;
  biOutput : BertBiOutput;
  v_intermediate : Emb → Emb;
  v_output : Emb → Emb → Emb;
  t_intermediate : Emb → Emb;
  t_output : Emb → Emb → Emb;
}.

Definition BertConnectionLayer_forward (m : BertConnectionLayer)
    (input_tensor1 : Emb) (attention_mask1 : Mask)
    (input_tensor2 : Emb) (attention_mask2 : Mask)
    (co_attention_mask : option CoMask) (use_co_attention_mask : bool)
    : Emb * Emb * CoAttnData :=
  let '(bi_output1, bi_output2, co_attention_probs) :=
    BertBiAttention_forward (biattention m) input_tensor1 attention_mask1
      input_tensor2 attention_mask2 co_attention_mask use_co_attention_mask in
  let '(attention_output1, attention_output2) :=
    BertBiOutput_forward (biOutput m) bi_output2 input_tensor1
      bi_output1 input_tensor2 in
  let intermediate_output1 := v_intermediate m attention_output1 in
  let layer_output1 := v_output m intermediate_output1 attention_output1 in
  let intermediate_output2 := t_intermediate m attention_output2 in
  let layer_output2 := t_output m intermediate_output2 attention_output2 in
  (layer_output1, layer_output2, co_attention_probs).

(** ** The fusion scheduler: [BertEncoder] *)

Inductive Mode : Set := no_grad | with_grad.

(** One entry of the ghost log: which layer of which stack was invoked. *)
Inductive Call : Set :=
| CallLayer (mode : Mode) (cur_idx : Z)
| CallVLayer (mode : Mode) (cur_v_idx : Z)
| CallCLayer (cur_c_idx : Z).

(** What [BertEncoder.__init__] stores. *)
Record BertEncoder := {
  FAST_MODE : bool;
  with_coattention : bool;
  v_biattention_id : list Z;
  t_biattention_id : list Z;
  in_batch_pairs : bool;
  fixed_t_layer : Z;
  fixed_v_layer : Z;
  layer : list BertLayer;
  v_layer : list BertImageLayer;
  c_layer : list BertConnectionLayer;
}.

(** The local variables of [BertEncoder.forward] that change during the call,
    and the ghost log. *)
Record Locals := mkLocals {
  txt_embedding : Emb;
  image_embedding : Emb;
  txt_attention_mask : Mask;
  image_attention_mask : Mask;
  co_attention_mask : CoMask;
  v_start : Z;
  t_start : Z;
  count : Z;
  all_encoder_layers_t : list Emb;
  all_encoder_layers_v : list Emb;
  all_attention_mask_t : list Emb;
  all_attnetion_mask_v : list Emb;
  all_attention_mask_c : list (Emb * Emb);
  calls : list Call;
}.

Definition set_t_start (s : Locals) (z : Z) : Locals :=
  mkLocals (txt_embedding s) (image_embedding s) (txt_attention_mask s)
    (image_attention_mask s) (co_attention_mask s) (v_start s) z (count s)
    (all_encoder_layers_t s) (all_encoder_layers_v s) (all_attention_mask_t s)
    (all_attnetion_mask_v s) (all_attention_mask_c s) (calls s).

Definition set_v_start (s : Locals) (z : Z) : Locals :=
  mkLocals (txt_embedding s) (image_embedding s) (txt_attention_mask s)
    (image_attention_mask s) (co_attention_mask s) z (t_start s) (count s)
    (all_encoder_layers_t s) (all_encoder_layers_v s) (all_attention_mask_t s)
    (all_attnetion_mask_v s) (all_attention_mask_c s) (calls s).

Section Forward.
Variable self : BertEncoder.
Variable txt_attention_mask2 : Mask.
Variables output_all_encoded_layers output_all_attention_masks : bool.

(** [if output_all_attention_masks and "attn" in probs: acc.append(probs["attn"])] *)
Definition append_attn {X : Type} (acc : list X) (probs : option X) : list X :=
  if output_all_attention_masks then
    match probs with Some a => acc ++ [a] | None => acc end
  else acc.

(** The text layer [cur_layer] returned [(out, probs)]: the assignment to
    [txt_embedding] and the append to [all_attention_mask_t]. *)
Definition assign_txt (s : Locals) (r : Emb * AttnData) (c : Call) : Locals :=
  mkLocals r.1 (image_embedding s) (txt_attention_mask s)
    (image_attention_mask s) (co_attention_mask s) (v_start s) (t_start s)
    (count s) (all_encoder_layers_t s) (all_encoder_layers_v s)
    (append_attn (all_attention_mask_t s) r.2)
    (all_attnetion_mask_v s) (all_attention_mask_c s) (calls s ++ [c]).

(** The same for the visual stream. *)
Definition assign_image (s : Locals) (r : Emb * AttnData) (c : Call) : Locals :=
  mkLocals (txt_embedding s) r.1 (txt_attention_mask s)
    (image_attention_mask s) (co_attention_mask s) (v_start s) (t_start s)
    (count s) (all_encoder_layers_t s) (all_encoder_layers_v s)
    (all_attention_mask_t s)
    (append_attn (all_attnetion_mask_v s) r.2) (all_attention_mask_c s)
    (calls s ++ [c]).

(** The fusion block returned [(image, txt, probs)]. *)
Definition assign_both (s : Locals) (r : Emb * Emb * CoAttnData) (c : Call)
    : Locals :=
  mkLocals r.1.2 r.1.1 (txt_attention_mask s)
    (image_attention_mask s) (co_attention_mask s) (v_start s) (t_start s)
    (count s) (all_encoder_layers_t s) (all_encoder_layers_v s)
    (all_attention_mask_t s) (all_attnetion_mask_v s)
    (append_attn (all_attention_mask_c s) r.2) (calls s ++ [c]).

(** First loop over [self.layer]: the frozen range.  [t_start] is assigned
    inside the loop body, as in the source. *)
Fixpoint frozen_text_loop (ls : list BertLayer) (cur_idx : Z) (s : Locals)
    : Locals :=
  match ls with
  | [] => s
  | cur_layer :: ls =>
    let s :=
      if bool_decide (t_start s ≤ cur_idx < fixed_t_layer self) then
        set_t_start
          (assign_txt s
             (forward_no_grad cur_layer (txt_embedding s) (txt_attention_mask s))
             (CallLayer no_grad cur_idx))
          (fixed_t_layer self)
      else s in
    frozen_text_loop ls (cur_idx + 1) s
  end.

(** Second loop over [self.layer]: the range up to [t_end]. *)
Fixpoint text_loop (t_end : Z) (ls : list BertLayer) (cur_idx : Z) (s : Locals)
    : Locals :=
  match ls with
  | [] => s
  | cur_layer :: ls =>
    let s :=
      if bool_decide (t_start s ≤ cur_idx < t_end) then
        assign_txt s
          (forward cur_layer (txt_embedding s) (txt_attention_mask s))
          (CallLayer with_grad cur_idx)
      else s in
    text_loop t_end ls (cur_idx + 1) s
  end.

Fixpoint frozen_visual_loop (ls : list BertImageLayer) (cur_v_idx : Z)
    (s : Locals) : Locals :=
  match ls with
  | [] => s
  | cur_v_layer :: ls =>
    let s :=
      if bool_decide (v_start s ≤ cur_v_idx < fixed_v_layer self) then
        set_v_start
          (assign_image s
             (v_forward_no_grad cur_v_layer (image_embedding s)
                (image_attention_mask s) (txt_embedding s) txt_attention_mask2)
             (CallVLayer no_grad cur_v_idx))
          (fixed_v_layer self)
      else s in
    frozen_visual_loop ls (cur_v_idx + 1) s
  end.

Fixpoint visual_loop (v_end : Z) (ls : list BertImageLayer) (cur_v_idx : Z)
    (s : Locals) : Locals :=
  match ls with
  | [] => s
  | cur_v_layer :: ls =>
    let s :=
      if bool_decide (v_start s ≤ cur_v_idx < v_end) then
        assign_image s
          (v_forward cur_v_layer (image_embedding s) (image_attention_mask s)
             (txt_embedding s) txt_attention_mask2)
          (CallVLayer with_grad cur_v_idx)
      else s in
    visual_loop v_end ls (cur_v_idx + 1) s
  end.

(** [x.unsqueeze(0).expand(B, B, ...).contiguous().view(B * B, ...)] *)
Definition expand_view0 {X : Type} (batch_size : nat) (x : list X)
    : result (list X) :=
  y ← Tensor.expand2 batch_size batch_size (Tensor.unsqueeze0 x);
  Ok (Tensor.view_merge (Tensor.contiguous y)).

(** [x.unsqueeze(1).expand(B, B, ...).contiguous().view(B * B, ...)] *)
Definition expand_view1 {X : Type} (batch_size : nat) (x : list X)
    : result (list X) :=
  y ← Tensor.expand2 batch_size batch_size (Tensor.unsqueeze1 x);
  Ok (Tensor.view_merge (Tensor.contiguous y)).

(** The body of [if count == 0 and self.in_batch_pairs]. *)
Definition pairwise_expansion (batch_size : nat) (s : Locals) : result Locals :=
  image_embedding' ← expand_view0 batch_size (image_embedding s);
  image_attention_mask' ← expand_view0 batch_size (image_attention_mask s);
  txt_embedding' ← expand_view1 batch_size (txt_embedding s);
  txt_attention_mask' ← expand_view1 batch_size (txt_attention_mask s);
  co_attention_mask' ← expand_view1 batch_size (co_attention_mask s);
  Ok (mkLocals txt_embedding' image_embedding' txt_attention_mask'
        image_attention_mask' co_attention_mask' (v_start s) (t_start s)
        (count s) (all_encoder_layers_t s) (all_encoder_layers_v s)
        (all_attention_mask_t s) (all_attnetion_mask_v s)
        (all_attention_mask_c s) (calls s)).

(** The body of [if count == 0 and self.FAST_MODE]. *)
Definition fast_broadcast (s : Locals) : result Locals :=
  txt_embedding' ←
    Tensor.expand_axis (length (image_embedding s)) (txt_embedding s);
  txt_attention_mask' ←
    Tensor.expand_axis (length (image_embedding s)) (txt_attention_mask s);
  Ok (mkLocals txt_embedding' (image_embedding s) txt_attention_mask'
        (image_attention_mask s) (co_attention_mask s) (v_start s) (t_start s)
        (count s) (all_encoder_layers_t s) (all_encoder_layers_v s)
        (all_attention_mask_t s) (all_attnetion_mask_v s)
        (all_attention_mask_c s) (calls s)).

(** [use_co_attention_mask = False], never reassigned. *)
Definition use_co_attention_mask : bool := false.

(** The loop over [self.c_layer] that picks the block at index [count]. *)
Fixpoint fusion_loop (ls : list BertConnectionLayer) (cur_c_idx : Z)
    (s : Locals) : Locals :=
  match ls with
  | [] => s
  | cur_c_layer :: ls =>
    let s :=
      if bool_decide (cur_c_idx = count s) then
        assign_both s
          (BertConnectionLayer_forward cur_c_layer (image_embedding s)
             (image_attention_mask s) (txt_embedding s) (txt_attention_mask s)
             (Some (co_attention_mask s)) use_co_attention_mask)
          (CallCLayer cur_c_idx)
      else s in
    fusion_loop ls (cur_c_idx + 1) s
  end.

(** [v_start = v_end; t_start = t_end; count += 1] and the conditional append
    to the two lists of encoded layers. *)
Definition close_entry (v_end t_end : Z) (s : Locals) : Locals :=
  mkLocals (txt_embedding s) (image_embedding s) (txt_attention_mask s)
    (image_attention_mask s) (co_attention_mask s) v_end t_end (count s + 1)
    (if output_all_encoded_layers then all_encoder_layers_t s ++ [txt_embedding s]
     else all_encoder_layers_t s)
    (if output_all_encoded_layers then all_encoder_layers_v s ++ [image_embedding s]
     else all_encoder_layers_v s)
    (all_attention_mask_t s) (all_attnetion_mask_v s) (all_attention_mask_c s)
    (calls s).

(** The two consecutive [if] statements of lines 683-728. *)
Definition reshape_batches (batch_size : nat) (s : Locals) : result Locals :=
  s ← (if bool_decide (count s = 0) && in_batch_pairs self
       then pairwise_expansion batch_size s else Ok s);
  if bool_decide (count s = 0) && FAST_MODE self
  then fast_broadcast s else Ok s.

(** One iteration of the loop over the zipped schedule. *)
Definition schedule_entry (batch_size : nat) (s : Locals)
    (v_layer_id t_layer_id : Z) : result Locals :=
  let v_end := v_layer_id in
  let t_end := t_layer_id in
  if negb (bool_decide (fixed_t_layer self ≤ t_end)) then Raise AssertionError
  else if negb (bool_decide (fixed_v_layer self ≤ v_end)) then Raise AssertionError
  else
    let s := frozen_text_loop (layer self) 0 s in
    let s := text_loop t_end (layer self) 0 s in
    let s := frozen_visual_loop (v_layer self) 0 s in
    let s := visual_loop v_end (v_layer self) 0 s in
    s ← reshape_batches batch_size s;
    let s := if with_coattention self then fusion_loop (c_layer self) 0 s
             else s in
    Ok (close_entry v_end t_end s).

Fixpoint schedule_loop (batch_size : nat) (schedule : list (Z * Z))
    (s : Locals) : result Locals :=
  match schedule with
  | [] => Ok s
  | (v_layer_id, t_layer_id) :: schedule =>
    s ← schedule_entry batch_size s v_layer_id t_layer_id;
    schedule_loop batch_size schedule s
  end.

(** The two loops after the schedule: the remaining visual layers, then the
    remaining text layers. *)
Fixpoint tail_visual_loop (ls : list BertImageLayer) (cur_v_idx : Z)
    (s : Locals) : Locals :=
  match ls with
  | [] => s
  | cur_v_layer :: ls =>
    let s :=
      if bool_decide (cur_v_idx >= v_start s) then
        assign_image s
          (v_forward cur_v_layer (image_embedding s) (image_attention_mask s)
             (txt_embedding s) txt_attention_mask2)
          (CallVLayer with_grad cur_v_idx)
      else s in
    tail_visual_loop ls (cur_v_idx + 1) s
  end.

Fixpoint tail_text_loop (ls : list BertLayer) (cur_idx : Z) (s : Locals)
    : Locals :=
  match ls with
  | [] => s
  | cur_layer :: ls =>
    let s :=
      if bool_decide (cur_idx >= t_start s) then
        assign_txt s
          (forward cur_layer (txt_embedding s) (txt_attention_mask s))
          (CallLayer with_grad cur_idx)
      else s in
    tail_text_loop ls (cur_idx + 1) s
  end.

Definition run_tail (s : Locals) : Locals :=
  tail_text_loop (layer self) 0 (tail_visual_loop (v_layer self) 0 s).

(** [if not output_all_encoded_layers: ... .append(...)] *)
Definition finish (s : Locals) : Locals :=
  mkLocals (txt_embedding s) (image_embedding s) (txt_attention_mask s)
    (image_attention_mask s) (co_attention_mask s) (v_start s) (t_start s)
    (count s)
    (if output_all_encoded_layers then all_encoder_layers_t s
     else all_encoder_layers_t s ++ [txt_embedding s])
    (if output_all_encoded_layers then all_encoder_layers_v s
     else all_encoder_layers_v s ++ [image_embedding s])
    (all_attention_mask_t s) (all_attnetion_mask_v s) (all_attention_mask_c s)
    (calls s).

(** The locals on entry of the schedule loop. *)
Definition initial (txt_embedding0 image_embedding0 : Emb)
    (txt_attention_mask0 image_attention_mask0 : Mask)
    (co_attention_mask0 : CoMask) : Locals :=
  mkLocals txt_embedding0 image_embedding0 txt_attention_mask0
    image_attention_mask0 co_attention_mask0 0 0 0 [] [] [] [] [] [].

(** [BertEncoder.forward], up to its [return]: the final locals. *)
Definition BertEncoder_run (txt_embedding0 image_embedding0 : Emb)
    (txt_attention_mask0 image_attention_mask0 : Mask)
    (co_attention_mask0 : CoMask) : result Locals :=
  let batch_size := length txt_embedding0 in
  s ← schedule_loop batch_size
        (zip (v_biattention_id self) (t_biattention_id self))
        (initial txt_embedding0 image_embedding0 txt_attention_mask0
           image_attention_mask0 co_attention_mask0);
  Ok (finish (run_tail s)).

(** The value [BertEncoder.forward] returns. *)
Definition returned (s : Locals)
    : list Emb * list Emb * (list Emb * list Emb * list (Emb * Emb)) :=
  (all_encoder_layers_t s, all_encoder_layers_v s,
   (all_attention_mask_t s, all_attnetion_mask_v s, all_attention_mask_c s)).

Definition BertEncoder_forward (txt_embedding0 image_embedding0 : Emb)
    (txt_attention_mask0 image_attention_mask0 : Mask)
    (co_attention_mask0 : CoMask) :=
  s ← BertEncoder_run txt_embedding0 image_embedding0 txt_attention_mask0
        image_attention_mask0 co_attention_mask0;
  Ok (returned s).

End Forward.

(** ** [ViLBERTBase] *)

(** [BertTextPooler] and [BertImagePooler]: the first position of every
    example, a projection and a ReLU. *)
Record Pooler := {
  dense : Emb → Emb;
  activation : Emb → Emb;
}.

Definition Pooler_forward (m : Pooler) (hidden_states : Emb) : Emb :=
  let first_token_tensor := first_token hidden_states in
  let pooled_output := dense m first_token_tensor in
  activation m pooled_output.

Record ViLBERTBase := {
  embeddings :
    list (list Z) → list (list Z) → option (list (list Z)) → Emb;
  task_specific_tokens : bool;
  v_embeddings : list (list Slice) → list (list Slice) → Emb;
  encoder : BertEncoder;
  t_pooler : Pooler;
  v_pooler : Pooler;
}.

(** [x.size(1)] of a rectangular tensor. *)
Definition size1 {X : Type} (x : list (list X)) : nat :=
  match x with [] => 0%nat | row :: _ => length row end.

(** [(1.0 - mask) * -10000.0], elementwise. *)
Definition additive_bias (mask : Mask) : Mask :=
  fmap (M := list) (fmap (M := list) (λ m, (1 - m) * -10000)) mask.

(** [co_attention_mask.unsqueeze(1) * 5.0], elementwise. *)
Definition scale_co_attention (co_attention_mask : CoMask) : CoMask :=
  fmap (M := list) (fmap (M := list) (fmap (M := list) (λ m, m * 5)))
    co_attention_mask.

(** [torch.cat([mask_tokens, attention_mask], dim=1)] with [mask_tokens] a
    column of ones as long as the batch of [input_txt]. *)
Definition cat_mask_tokens (input_txt : list (list Z)) (attention_mask : Mask)
    : result Mask :=
  if decide (length attention_mask = length input_txt)
  then Ok (fmap (M := list) (λ row, 1 :: row) attention_mask)
  else Raise RuntimeError.

(** Lines 962-1022: the three masks handed to the encoder, and the unscaled
    text mask in its second layout. *)
Definition build_masks (self : ViLBERTBase) (input_txt : list (list Z))
    (image_feature : list (list Slice))
    (attention_mask image_attention_mask : option Mask)
    (co_attention_mask : option CoMask)
    : result (Mask * Mask * Mask * CoMask) :=
  let attention_mask :=
    match attention_mask with
    | None => fmap (M := list) (fmap (M := list) (λ _, 1)) input_txt
    | Some m => m
    end in
  let image_attention_mask :=
    match image_attention_mask with
    | None => replicate (length image_feature)
                (replicate (size1 image_feature) 1)
    | Some m => m
    end in
  attention_mask ←
    (if task_specific_tokens self then cat_mask_tokens input_txt attention_mask
     else Ok attention_mask);
  let extended_attention_mask2 := attention_mask in
  let extended_attention_mask := additive_bias attention_mask in
  let extended_image_attention_mask := additive_bias image_attention_mask in
  let co_attention_mask :=
    match co_attention_mask with
    | None => replicate (length input_txt)
                (replicate (size1 image_feature)
                   (replicate (size1 input_txt) 0))
    | Some m => m
    end in
  let extended_co_attention_mask := scale_co_attention co_attention_mask in
  Ok (extended_attention_mask, extended_attention_mask2,
      extended_image_attention_mask, extended_co_attention_mask).

Record ViLBERTOutput := {
  sequence_output_t : Emb;
  sequence_output_v : Emb;
  pooled_output_t : Emb;
  pooled_output_v : Emb;
  all_attention_mask_output :
    option (list Emb * list Emb * list (Emb * Emb));
  encoded_layers_t_output : option (list Emb);
  encoded_layers_v_output : option (list Emb);
}.

(** [xs[-1]] *)
Definition last_item {X : Type} (xs : list X) : result X :=
  match last xs with Some x => Ok x | None => Raise IndexError end.

Definition ViLBERTBase_forward (self : ViLBERTBase)
    (input_txt : list (list Z)) (image_feature image_location : list (list Slice))
    (token_type_ids : option (list (list Z)))
    (attention_mask image_attention_mask : option Mask)
    (co_attention_mask : option CoMask) (task_ids : option (list (list Z)))
    (output_all_encoded_layers output_all_attention_masks : bool)
    : result ViLBERTOutput :=
  let token_type_ids :=
    match token_type_ids with
    | None => fmap (M := list) (fmap (M := list) (λ _, 0)) input_txt
    | Some t => t
    end in
  '(extended_attention_mask, extended_attention_mask2,
    extended_image_attention_mask, extended_co_attention_mask) ←
    build_masks self input_txt image_feature attention_mask
      image_attention_mask co_attention_mask;
  let embedding_output := embeddings self input_txt token_type_ids task_ids in
  let v_embedding_output := v_embeddings self image_feature image_location in
  '(encoded_layers_t, encoded_layers_v, all_attention_mask) ←
    BertEncoder_forward (encoder self) extended_attention_mask2
      output_all_encoded_layers output_all_attention_masks
      embedding_output v_embedding_output extended_attention_mask
      extended_image_attention_mask extended_co_attention_mask;
  sequence_output_t ← last_item encoded_layers_t;
  sequence_output_v ← last_item encoded_layers_v;
  let pooled_output_t := Pooler_forward (t_pooler self) sequence_output_t in
  let pooled_output_v := Pooler_forward (v_pooler self) sequence_output_v in
  Ok {| sequence_output_t := sequence_output_t;
        sequence_output_v := sequence_output_v;
        pooled_output_t := pooled_output_t;
        pooled_output_v := pooled_output_v;
        all_attention_mask_output :=
          if output_all_attention_masks then Some all_attention_mask else None;
        encoded_layers_t_output :=
          if output_all_encoded_layers then Some encoded_layers_t else None;
        encoded_layers_v_output :=
          if output_all_encoded_layers then Some encoded_layers_v else None |}.

End Model.

(** ** Configuration and construction *)

Module Config.
Record t := {
  hidden_size : Z;
  num_attention_heads : Z;
  v_hidden_size : Z;
  v_num_attention_heads : Z;
  bi_hidden_size : Z;
  bi_num_attention_heads : Z;
  num_hidden_layers : Z;
  v_num_hidden_layers : Z;
  v_biattention_id : list Z;
  t_biattention_id : list Z;
  fixed_t_layer : Z;
  fixed_v_layer : Z;
  with_coattention : bool;
  in_batch_pairs : bool;
  fast_mode : bool;
  task_specific_tokens : bool;
  fusion_method : string;
  training_head_type : string;
}.
End Config.

(** The guard at the head of [BertSelfAttention.__init__],
    [BertImageSelfAttention.__init__] and [BertBiAttention.__init__]:
    [if hidden % heads != 0: raise ValueError]. *)
Definition check_heads (hidden heads : Z) : result () :=
  if decide (heads = 0) then Raise ZeroDivisionError
  else if decide (hidden `mod` heads ≠ 0) then Raise ValueError
  else Ok ().

Section Construction.
Context {Slice : Type} `{!TensorOps Slice}.

(** The modules the constructors build, with the weights they end up with:
    given, since their arithmetic is not modelled. *)
Record Modules := {
  mk_layer : nat → BertLayer (Slice := Slice);
  mk_v_layer : nat → BertImageLayer (Slice := Slice);
  mk_c_layer : nat → BertConnectionLayer (Slice := Slice);
  mk_embeddings :
    list (list Z) → list (list Z) → option (list (list Z)) → list Slice;
  mk_v_embeddings : list (list Slice) → list (list Slice) → list Slice;
  mk_t_pooler : Pooler (Slice := Slice);
  mk_v_pooler : Pooler (Slice := Slice);
  mk_dropout : list Slice → list Slice;
}.

(** [[deepcopy(layer) for _ in range(n)]] *)
Definition stack {X : Type} (mk : nat → X) (n : Z) : list X :=
  mk <$> seq 0 (Z.to_nat n).

Definition BertEncoder_init (config : Config.t) (w : Modules)
    : result (BertEncoder (Slice := Slice)) :=
  _ ← check_heads (Config.hidden_size config)
        (Config.num_attention_heads config);
  _ ← check_heads (Config.v_hidden_size config)
        (Config.v_num_attention_heads config);
  _ ← check_heads (Config.bi_hidden_size config)
        (Config.bi_num_attention_heads config);
  Ok {| FAST_MODE := Config.fast_mode config;
        with_coattention := Config.with_coattention config;
        v_biattention_id := Config.v_biattention_id config;
        t_biattention_id := Config.t_biattention_id config;
        in_batch_pairs := Config.in_batch_pairs config;
        fixed_t_layer := Config.fixed_t_layer config;
        fixed_v_layer := Config.fixed_v_layer config;
        layer := stack (mk_layer w) (Config.num_hidden_layers config);
        v_layer := stack (mk_v_layer w) (Config.v_num_hidden_layers config);
        c_layer := stack (mk_c_layer w)
                     (Z.of_nat (length (Config.v_biattention_id config))) |}.

Definition ViLBERTBase_init (config : Config.t) (w : Modules)
    : result (ViLBERTBase (Slice := Slice)) :=
  encoder ← BertEncoder_init config w;
  Ok {| embeddings := mk_embeddings w;
        task_specific_tokens := Config.task_specific_tokens config;
        v_embeddings := mk_v_embeddings w;
        encoder := encoder;
        t_pooler := mk_t_pooler w;
        v_pooler := mk_v_pooler w |}.

(** ** The pooled-vector combination *)

Record ViLBERTExpert := {
  bert : ViLBERTBase (Slice := Slice);
  training_head_type : string;
  fusion_method : string;
  dropout : list Slice → list Slice;
}.

Definition ViLBERTExpert_init (config : Config.t) (w : Modules)
    : result ViLBERTExpert :=
  bert ← ViLBERTBase_init config w;
  Ok {| bert := bert;
        training_head_type := Config.training_head_type config;
        fusion_method := Config.fusion_method config;
        dropout := mk_dropout w |}.

(** [pooled_output.view(-1, pooled_output.size(1) * 2)]: consecutive rows are
    joined two by two; an odd number of rows does not fit. *)
Fixpoint view_pairs (pooled_output : list Slice) : result (list Slice) :=
  match pooled_output with
  | [] => Ok []
  | a :: b :: rest => rest' ← view_pairs rest; Ok (cat_last a b :: rest')
  | [_] => Raise RuntimeError
  end.

(** Lines 1177-1182 and 882-887. *)
Definition fuse_pooled (fusion_method : string)
    (dropout : list Slice → list Slice)
    (pooled_output_t pooled_output_v : list Slice) : result (list Slice) :=
  if decide (fusion_method = "sum") then
    Ok (dropout (add pooled_output_t pooled_output_v))
  else if decide (fusion_method = "mul") then
    Ok (dropout (mul pooled_output_t pooled_output_v))
  else Raise AssertionError.

Definition ViLBERTExpert_forward (self : ViLBERTExpert)
    (input_ids : list (list Z)) (image_feature image_location : list (list Slice))
    (token_type_ids : option (list (list Z)))
    (attention_mask image_attention_mask : option Mask)
    (output_all_attention_masks : bool) : result (list Slice) :=
  out ← ViLBERTBase_forward (bert self) input_ids image_feature image_location
          token_type_ids attention_mask image_attention_mask None None
          false output_all_attention_masks;
  pooled_output ← fuse_pooled (fusion_method self) (dropout self)
                    (pooled_output_t out) (pooled_output_v out);
  if decide (training_head_type self = "nlvr2") then view_pairs pooled_output
  else Ok pooled_output.

Record BertPreTrainingHeads := {
  predictions : list Slice → list Slice;
  bi_seq_relationship : list Slice → list Slice;
  imagePredictions : list Slice → list Slice;
  heads_fusion_method : string;
  heads_dropout : list Slice → list Slice;
}.

Definition BertPreTrainingHeads_init (config : Config.t)
    (predictions bi_seq_relationship imagePredictions dropout
       : list Slice → list Slice) : BertPreTrainingHeads :=
  {| predictions := predictions;
     bi_seq_relationship := bi_seq_relationship;
     imagePredictions := imagePredictions;
     heads_fusion_method := Config.fusion_method config;
     heads_dropout := dropout |}.

Definition BertPreTrainingHeads_forward (self : BertPreTrainingHeads)
    (sequence_output_t sequence_output_v pooled_output_t pooled_output_v
       : list Slice) : result (list Slice * list Slice * list Slice) :=
  pooled_output ← fuse_pooled (heads_fusion_method self) (heads_dropout self)
                    pooled_output_t pooled_output_v;
  let prediction_scores_t := predictions self sequence_output_t in
  let seq_relationship_score := bi_seq_relationship self pooled_output in
  let prediction_scores_v := imagePredictions self sequence_output_v in
  Ok (prediction_scores_t, prediction_scores_v, seq_relationship_score).

End Construction.

(** ** A marker instance

    Slices are lists of integers; every layer appends its own tag to every
    slice it is given, so that the slices of the result list the layers that
    produced them, in order. *)

Module Marker.

Definition tag (z : Z) (x : list (list Z)) : list (list Z) :=
  (λ slice, slice ++ [z]) <$> x.

#[global] Instance ops : TensorOps (list Z) := {|
  matmul x _ := x;
  transpose_last x := x;
  div_sqrt _ x := x;
  add x y := zip_with (zip_with Z.add) x y;
  mul x y := zip_with (zip_with Z.mul) x y;
  add_mask x _ := x;
  softmax x := x;
  first_token x := take 1 <$> x;
  cat_last a b := a ++ b;
|}.

(** Text layer number [i] appends [i]. *)
Definition text_layer (i : nat) : BertLayer (Slice := list Z) :=
  {| forward h _ := (tag (Z.of_nat i) h, None) |}.

(** Visual layer number [i] appends [100 + i]; with [dyn] set it first
    appends the number of tags the first text slice carries. *)
Definition visual_layer (dyn : bool) (i : nat) : BertImageLayer (Slice := list Z) :=
  {| dynamic_attention := dyn;
     gates t _ := [[Z.of_nat (length (default [] (head t)))]];
     attend g h _ :=
       (tag (100 + Z.of_nat i)
          (match g with
           | Some [[n]] => tag n h
           | _ => h
           end), None) |}.

Definition bi_attention : BertBiAttention (Slice := list Z) :=
  {| bi_visualization := false;
     attention_head_size := 1;
     transpose_for_scores x := x;
     merge_heads x := x;
     query1 x := x; key1 x := x; value1 x := x;
     query2 x := x; key2 x := x; value2 x := x;
     bi_dropout1 x := x; bi_dropout2 x := x |}.

Definition bi_output : BertBiOutput (Slice := list Z) :=
  {| dense1 x := fmap (M := list) (fmap (M := list) (λ _, 0)) x;
     LayerNorm1 x := x; dropout1 x := x;
     dense2 x := fmap (M := list) (fmap (M := list) (λ _, 0)) x;
     LayerNorm2 x := x; dropout2 x := x |}.

(** Fusion block number [i] appends [200 + i] to both streams: its
    projections of the two contexts are zero. *)
Definition fusion_layer (i : nat) : BertConnectionLayer (Slice := list Z) :=
  {| biattention := bi_attention;
     biOutput := bi_output;
     v_intermediate x := x;
     v_output _ x := tag (200 + Z.of_nat i) x;
     t_intermediate x := x;
     t_output _ x := tag (200 + Z.of_nat i) x |}.

Definition modules (dyn : bool) : Modules (Slice := list Z) :=
  {| mk_layer := text_layer;
     mk_v_layer := visual_layer dyn;
     mk_c_layer := fusion_layer;
     mk_embeddings input_txt _ _ := input_txt;
     mk_v_embeddings image_feature _ := List.map (@List.concat Z) image_feature;
     mk_t_pooler := {| dense x := x; activation x := x |};
     mk_v_pooler := {| dense x := x; activation x := x |};
     mk_dropout x := x |}.

(** A configuration with heads that divide the widths; the rest is given. *)
Definition config (num_hidden_layers v_num_hidden_layers : Z)
    (v_biattention_id t_biattention_id : list Z)
    (fixed_t_layer fixed_v_layer : Z)
    (with_coattention in_batch_pairs fast_mode : bool)
    (fusion_method : string) : Config.t :=
  {| Config.hidden_size := 8; Config.num_attention_heads := 2;
     Config.v_hidden_size := 8; Config.v_num_attention_heads := 2;
     Config.bi_hidden_size := 8; Config.bi_num_attention_heads := 2;
     Config.num_hidden_layers := num_hidden_layers;
     Config.v_num_hidden_layers := v_num_hidden_layers;
     Config.v_biattention_id := v_biattention_id;
     Config.t_biattention_id := t_biattention_id;
     Config.fixed_t_layer := fixed_t_layer;
     Config.fixed_v_layer := fixed_v_layer;
     Config.with_coattention := with_coattention;
     Config.in_batch_pairs := in_batch_pairs;
     Config.fast_mode := fast_mode;
     Config.task_specific_tokens := false;
     Config.fusion_method := fusion_method;
     Config.training_head_type := "classification" |}.

End Marker.

(** ** Reference definitions for the statements *)

Section Reference.
Context {Slice : Type} `{!TensorOps Slice}.

(** A whole stack of text layers run on its own, layer after layer. *)
Definition run_text_stack (ls : list (BertLayer (Slice := Slice)))
    (attention_mask : Mask) (hidden_states : list Slice) : list Slice :=
  foldl (λ h l, (forward l h attention_mask).1) hidden_states ls.

(** A whole stack of visual layers run on its own, every layer being given
    the same text sequence. *)
Definition run_visual_stack (ls : list (BertImageLayer (Slice := Slice)))
    (attention_mask : Mask) (txt_embedding : list Slice)
    (txt_attention_mask : Mask) (hidden_states : list Slice) : list Slice :=
  foldl (λ h l,
           (v_forward l h attention_mask txt_embedding txt_attention_mask).1)
    hidden_states ls.

(** Whether an entry of the ghost log is the call of a fusion block. *)
Definition is_fusion_call (c : Call) : bool :=
  match c with CallCLayer _ => true | _ => false end.

End Reference.

(** A schedule, as zipped by [forward] (visual depth first), whose depths
    never decrease. *)
Fixpoint non_decreasing (schedule : list (Z * Z)) : bool :=
  match schedule with
  | a :: rest =>
    match rest with
    | b :: _ => bool_decide (a.1 ≤ b.1) && bool_decide (a.2 ≤ b.2)
    | [] => true
    end && non_decreasing rest
  | [] => true
  end.

(** The three guards of the constructors, as one test. *)
Definition heads_divide (config : Config.t) : bool :=
  is_ok (check_heads (Config.hidden_size config)
           (Config.num_attention_heads config))
  && is_ok (check_heads (Config.v_hidden_size config)
              (Config.v_num_attention_heads config))
  && is_ok (check_heads (Config.bi_hidden_size config)
              (Config.bi_num_attention_heads config)).

(** ** Concrete inputs *)

Module Inputs.
Import Marker.

(** Three text layers, one visual layer, one fusion point at text depth 2,
    the first two text layers frozen; no fusion. *)
Definition frozen_two : Config.t :=
  config 3 1 [0] [2] 2 0 false false false "sum".

(** Three text layers and two visual layers, one fusion point at depths
    (2, 1), nothing frozen. *)
Definition one_fusion (with_coattention in_batch_pairs fast_mode : bool)
    (fusion_method : string) : Config.t :=
  config 3 2 [1] [2] 0 0 with_coattention in_batch_pairs fast_mode
    fusion_method.

(** A schedule whose text depths decrease: 2, then 1. *)
Definition decreasing : Config.t :=
  config 3 1 [0; 0] [2; 1] 0 0 false false false "sum".

(** The encoder [BertEncoder.__init__] builds, or an empty one if the
    construction raises. *)
Definition encoder_of (dyn : bool) (config : Config.t)
    : BertEncoder (Slice := list Z) :=
  match BertEncoder_init config (modules dyn) with
  | Ok e => e
  | Raise _ =>
    {| FAST_MODE := false; with_coattention := false;
       v_biattention_id := []; t_biattention_id := [];
       in_batch_pairs := false; fixed_t_layer := 0; fixed_v_layer := 0;
       layer := []; v_layer := []; c_layer := [] |}
  end.

Definition base_of (dyn : bool) (config : Config.t)
    : ViLBERTBase (Slice := list Z) :=
  {| embeddings := mk_embeddings (modules dyn);
     task_specific_tokens := Config.task_specific_tokens config;
     v_embeddings := mk_v_embeddings (modules dyn);
     encoder := encoder_of dyn config;
     t_pooler := mk_t_pooler (modules dyn);
     v_pooler := mk_v_pooler (modules dyn) |}.

(** A batch of two text examples tagged 7 and 8 and two visual examples
    tagged 9 and 10, with their masks, on entry of the schedule loop. *)
Definition two_by_two : Locals (Slice := list Z) :=
  initial [[7]; [8]] [[9]; [10]] [[0; 0]; [0; -10000]]
    [[0]; [-10000]] [[[70]]; [[80]]].

(** One text example tagged 7 against three visual examples. *)
Definition one_by_three : Locals (Slice := list Z) :=
  initial [[7]] [[9]; [10]; [11]] [[0; -10000]]
    [[0]; [0]; [-10000]] [[[0]]].

(** What a run leaves in the two streams, in the two lists of encoded layers
    and in the ghost log. *)
Definition view (r : result (Locals (Slice := list Z))) :=
  s ← r;
  Ok (txt_embedding s, image_embedding s, all_encoder_layers_t s,
      all_encoder_layers_v s, calls s).

End Inputs.

Module Runs.
Import Marker Inputs.

Definition pairs_encoder := encoder_of false (one_fusion true true false "sum").
Definition fast_encoder := encoder_of false (one_fusion true false true "sum").
Definition both_encoder := encoder_of false (one_fusion true true true "sum").
Definition fusion_base := base_of false (one_fusion true false false "sum").

(** [ViLBERTBase.forward] on one text example and one visual example of one
    region, with the given co-attention mask. *)
Definition forward_with_co (co_attention_mask : option CoMask)
    (output_all_encoded_layers : bool) :=
  ViLBERTBase_forward fusion_base [[7]] [[[9]]] [[[0]]] None None None
    co_attention_mask None output_all_encoded_layers false.

(** [BertEncoder.forward] of the encoder of [config] on one text example
    and one visual example, both untagged. *)
Definition run (dyn : bool) (config : Config.t)
    (output_all_encoded_layers : bool) :=
  BertEncoder_run (encoder_of dyn config) [[1]] output_all_encoded_layers false
    [[]] [[]] [[0]] [[0]] [[[0]]].

End Runs.

(** ** Straight-line runs, to state what the loops of [forward] amount to *)

Section Straight.
Context {Slice : Type} `{!TensorOps Slice}.
Variable txt_attention_mask2 : Mask.
Variable output_all_attention_masks : bool.

(** The text layers [ls], the first of index [cur_idx], run one after the
    other on the locals, as the body of the second text loop runs one. *)
Fixpoint run_layers (ls : list (BertLayer (Slice := Slice))) (cur_idx : Z)
    (s : Locals) : Locals :=
  match ls with
  | [] => s
  | cur_layer :: ls =>
    run_layers ls (cur_idx + 1)
      (assign_txt output_all_attention_masks s
         (forward cur_layer (txt_embedding s) (txt_attention_mask s))
         (CallLayer with_grad cur_idx))
  end.

(** The same for visual layers. *)
Fixpoint run_v_layers (ls : list (BertImageLayer (Slice := Slice)))
    (cur_v_idx : Z) (s : Locals) : Locals :=
  match ls with
  | [] => s
  | cur_v_layer :: ls =>
    run_v_layers ls (cur_v_idx + 1)
      (assign_image output_all_attention_masks s
         (v_forward cur_v_layer (image_embedding s) (image_attention_mask s)
            (txt_embedding s) txt_attention_mask2)
         (CallVLayer with_grad cur_v_idx))
  end.

(** The fusion calls of the ghost log. *)
Definition fusion_calls (s : Locals (Slice := Slice)) : list Call :=
  filter (λ c, is_fusion_call c = true) (calls s).

(** Everything a text layer leaves alone, [t_start] apart. *)
Definition beside_text (s : Locals (Slice := Slice)) :=
  (image_embedding s, txt_attention_mask s, image_attention_mask s,
   co_attention_mask s, v_start s, count s, all_encoder_layers_t s,
   all_encoder_layers_v s, all_attnetion_mask_v s, all_attention_mask_c s,
   fusion_calls s).

(** Everything a visual layer leaves alone, [v_start] apart. *)
Definition beside_image (s : Locals (Slice := Slice)) :=
  (txt_embedding s, txt_attention_mask s, image_attention_mask s,
   co_attention_mask s, t_start s, count s, all_encoder_layers_t s,
   all_encoder_layers_v s, all_attention_mask_t s, all_attention_mask_c s,
   fusion_calls s).

End Straight.

(** ** The streams of an encoder that never fuses *)

Section Separate.
Context {Slice : Type} `{!TensorOps Slice}.

(** The locals [s] hold the two streams run separately up to the depths
    [t_start s] and [v_start s], from the inputs of the call. *)
Definition separate_streams (self : BertEncoder (Slice := Slice))
    (txt_attention_mask2 : Mask) (txt_embedding0 image_embedding0 : list Slice)
    (txt_attention_mask0 image_attention_mask0 : Mask) (s : Locals) : Prop :=
  txt_embedding s
  = run_text_stack (take (Z.to_nat (t_start s)) (layer self))
      txt_attention_mask0 txt_embedding0 ∧
  image_embedding s
  = run_visual_stack (take (Z.to_nat (v_start s)) (v_layer self))
      image_attention_mask0 txt_embedding0 txt_attention_mask2
      image_embedding0 ∧
  txt_attention_mask s = txt_attention_mask0 ∧
  image_attention_mask s = image_attention_mask0 ∧
  all_attention_mask_c s = [] ∧
  fusion_calls s = [].

End Separate.

(** [(1.0 - m) * -10000.0] on one entry, in IEEE binary64 arithmetic. *)
Definition additive_bias_float (m : float) : float :=
  PrimFloat.mul (PrimFloat.sub 1%float m) (-10000)%float.

(** ** The calls made without gradient *)

Definition is_frozen_text_call (c : Call) : bool :=
  match c with CallLayer no_grad _ => true | _ => false end.

Definition is_frozen_visual_call (c : Call) : bool :=
  match c with CallVLayer no_grad _ => true | _ => false end.

(** * Properties *)

(** ** Expansion along the leading axes *)

Section TensorFacts.
Context {A : Type}.
Implicit Types (x : list A) (n : nat).

Lemma expand_axis_same n x :
  length x = n → Tensor.expand_axis n x = Ok x.
Proof. intros Hn. unfold Tensor.expand_axis. now rewrite decide_True. Qed.

Lemma expand_axis_singleton n (a : A) :
  Tensor.expand_axis n [a] = Ok (replicate n a).
Proof.
  unfold Tensor.expand_axis. case_decide as Hn; [|done].
  simpl in Hn. now subst n.
Qed.

Lemma mapM_expand_axis_same n (xs : list (list A)) :
  Forall (λ x, length x = n) xs →
  mapM (M := result) (Tensor.expand_axis n) xs = Ok xs.
Proof.
  induction 1 as [|x xs Hx _ IH]; [done|].
  cbn. rewrite (expand_axis_same _ _ Hx). cbn. now rewrite IH.
Qed.

Lemma mapM_expand_axis_singletons n x :
  mapM (M := result) (Tensor.expand_axis n) (Tensor.unsqueeze1 x)
  = Ok (replicate n <$> x).
Proof.
  induction x as [|a x IH]; [done|].
  cbn. rewrite expand_axis_singleton. cbn.
  unfold Tensor.unsqueeze1 in IH. now rewrite IH.
Qed.

End TensorFacts.

Section TensorFacts2.
Context {A : Type}.
Implicit Types (x : list A) (n : nat).

Lemma expand_view1_ok n x :
  length x = n → expand_view1 n x = Ok (mjoin (replicate n <$> x)).
Proof.
  intros Hn. unfold expand_view1, Tensor.expand2.
  rewrite mapM_expand_axis_singletons, expand_axis_same; [done|].
  now rewrite length_fmap.
Qed.

Lemma expand_view0_ok n x :
  length x = n → expand_view0 n x = Ok (mjoin (replicate n x)).
Proof.
  intros Hn. unfold expand_view0, Tensor.expand2, Tensor.unsqueeze0.
  rewrite mapM_expand_axis_same by (now constructor).
  now rewrite expand_axis_singleton.
Qed.

Lemma length_join_replicate_rows n x :
  length (mjoin (replicate n <$> x)) = (length x * n)%nat.
Proof.
  induction x as [|a x IH]; [done|].
  csimpl. rewrite length_app, length_replicate, IH. lia.
Qed.

Lemma length_join_replicate n x :
  length (mjoin (replicate n x)) = (n * length x)%nat.
Proof.
  induction n as [|n IH]; [done|].
  csimpl. rewrite length_app, IH. lia.
Qed.

(** Entry [j * n + k] of the text-side expansion is entry [j]. *)
Lemma lookup_join_replicate_rows n x (j k : nat) :
  (k < n)%nat → mjoin (replicate n <$> x) !! (j * n + k)%nat = x !! j.
Proof.
  intros Hk. revert j. induction x as [|a x IH]; intros j.
  - done.
  - csimpl. destruct j as [|j].
    + rewrite lookup_app_l by (rewrite length_replicate; lia).
      now rewrite lookup_replicate_2 by lia.
    + rewrite lookup_app_r by (rewrite length_replicate; lia).
      rewrite length_replicate.
      replace (S j * n + k - n)%nat with (j * n + k)%nat by lia.
      apply IH.
Qed.

(** Entry [j * length x + k] of the visual-side expansion is entry [k]. *)
Lemma lookup_join_replicate n x (j k : nat) :
  (j < n)%nat → (k < length x)%nat →
  mjoin (replicate n x) !! (j * length x + k)%nat = x !! k.
Proof.
  revert j. induction n as [|n IH]; intros j Hj Hk; [lia|].
  csimpl. destruct j as [|j].
  - now rewrite lookup_app_l by lia.
  - rewrite lookup_app_r by lia.
    replace (S j * length x + k - length x)%nat
      with (j * length x + k)%nat by lia.
    apply IH; lia.
Qed.

(** Broadcasting a batch of one. *)
Lemma expand_axis_broadcast n (a : A) (i : nat) y :
  Tensor.expand_axis n [a] = Ok y →
  length y = n ∧ ((i < n)%nat → y !! i = Some a).
Proof.
  rewrite expand_axis_singleton. intros [= <-].
  split; [apply length_replicate|]. intros Hi. now apply lookup_replicate_2.
Qed.

End TensorFacts2.
Section Reshape.
Context {Slice : Type} `{!TensorOps Slice}.
Implicit Types (self : BertEncoder (Slice := Slice)) (s : Locals (Slice := Slice)).

Lemma pairwise_expansion_ok (B : nat) s :
  length (image_embedding s) = B → length (image_attention_mask s) = B →
  length (txt_embedding s) = B → length (txt_attention_mask s) = B →
  length (co_attention_mask s) = B →
  pairwise_expansion B s =
    Ok (mkLocals
          (mjoin (replicate B <$> txt_embedding s))
          (mjoin (replicate B (image_embedding s)))
          (mjoin (replicate B <$> txt_attention_mask s))
          (mjoin (replicate B (image_attention_mask s)))
          (mjoin (replicate B <$> co_attention_mask s))
          (v_start s) (t_start s) (count s) (all_encoder_layers_t s)
          (all_encoder_layers_v s) (all_attention_mask_t s)
          (all_attnetion_mask_v s) (all_attention_mask_c s) (calls s)).
Proof.
  intros Hi Him Ht Htm Hc. unfold pairwise_expansion.
  rewrite !expand_view0_ok, !expand_view1_ok by done. done.
Qed.

Lemma pair_index_unique (B i : nat) :
  (i < B * B)%nat →
  ∃ j k : nat, (j < B)%nat ∧ (k < B)%nat ∧ i = (j * B + k)%nat ∧
    ∀ j' k' : nat, (j' < B)%nat → (k' < B)%nat → i = (j' * B + k')%nat →
      j' = j ∧ k' = k.
Proof.
  intros Hi. assert (HB : B ≠ 0%nat) by lia.
  exists (i / B)%nat, (i `mod` B)%nat.
  pose proof (Nat.div_mod_eq i B) as Hdm.
  pose proof (Nat.mod_upper_bound i B HB) as Hm.
  repeat split.
  - apply Nat.Div0.div_lt_upper_bound; lia.
  - done.
  - lia.
  - subst i. rewrite Nat.div_add_l, Nat.div_small by lia. lia.
  - subst i. rewrite Nat.add_comm, Nat.Div0.mod_add, Nat.mod_small; lia.
Qed.
End Reshape.

Section ReshapeFirstEntry.
Context {Slice : Type} `{!TensorOps Slice}.
Implicit Types (self : BertEncoder (Slice := Slice)) (s : Locals (Slice := Slice)).

Lemma fast_broadcast_same s :
  length (txt_embedding s) = length (image_embedding s) →
  length (txt_attention_mask s) = length (image_embedding s) →
  fast_broadcast s =
    Ok (mkLocals (txt_embedding s) (image_embedding s) (txt_attention_mask s)
          (image_attention_mask s) (co_attention_mask s) (v_start s)
          (t_start s) (count s) (all_encoder_layers_t s)
          (all_encoder_layers_v s) (all_attention_mask_t s)
          (all_attnetion_mask_v s) (all_attention_mask_c s) (calls s)).
Proof.
  intros Ht Hm. unfold fast_broadcast. now rewrite !expand_axis_same by done.
Qed.

(** C5.  Pairwise expansion on the first schedule entry: with every batch of
    size [B], the five tensors get batch size [B * B]; entry [j * B + k] holds
    text example [j] (embedding and mask) and visual example [k] (embedding
    and mask), the co-attention mask being expanded along the text axis; and
    every position below [B * B] is [j * B + k] for exactly one pair. *)
Theorem pairwise_expansion_pairs_text_with_visual self (B : nat) s :
  count s = 0 → in_batch_pairs self = true → FAST_MODE self = false →
  length (txt_embedding s) = B → length (txt_attention_mask s) = B →
  length (image_embedding s) = B → length (image_attention_mask s) = B →
  length (co_attention_mask s) = B →
  ∃ s', reshape_batches self B s = Ok s' ∧
    (length (image_embedding s') = (B * B)%nat ∧
     length (image_attention_mask s') = (B * B)%nat ∧
     length (co_attention_mask s') = (B * B)%nat ∧
     length (txt_embedding s') = (B * B)%nat ∧
     length (txt_attention_mask s') = (B * B)%nat) ∧
    (∀ j k : nat, (j < B)%nat → (k < B)%nat →
       txt_embedding s' !! (j * B + k)%nat = txt_embedding s !! j ∧
       txt_attention_mask s' !! (j * B + k)%nat = txt_attention_mask s !! j ∧
       image_embedding s' !! (j * B + k)%nat = image_embedding s !! k ∧
       image_attention_mask s' !! (j * B + k)%nat
         = image_attention_mask s !! k ∧
       co_attention_mask s' !! (j * B + k)%nat = co_attention_mask s !! j) ∧
    (∀ i : nat, (i < B * B)%nat →
       ∃ j k : nat, (j < B)%nat ∧ (k < B)%nat ∧ i = (j * B + k)%nat ∧
         ∀ j' k' : nat, (j' < B)%nat → (k' < B)%nat →
           i = (j' * B + k')%nat → j' = j ∧ k' = k).
Proof.
  intros Hc Hp Hf Ht Htm Hi Him Hco.
  eexists. split.
  { unfold reshape_batches. rewrite Hc, Hp, Hf.
    rewrite bool_decide_eq_true_2 by done. cbn.
    rewrite pairwise_expansion_ok by done. cbn. rewrite Hc.
    rewrite andb_false_r. reflexivity. }
  cbn. split; [|split].
  - rewrite !length_join_replicate_rows, !length_join_replicate.
    rewrite Ht, Htm, Hi, Him, Hco. done.
  - intros j k Hj Hk.
    rewrite !lookup_join_replicate_rows by done.
    pose proof (lookup_join_replicate B (image_embedding s) j k) as H1.
    pose proof (lookup_join_replicate B (image_attention_mask s) j k) as H2.
    rewrite Hi in H1. rewrite Him in H2.
    rewrite H1, H2 by done. done.
  - apply pair_index_unique.
Qed.

(** C6.  Fast mode on the first schedule entry, pairwise expansion off: a
    text batch of one is repeated to the visual batch size [N], every slice
    being the single text example (resp. its mask), and the visual tensors
    are left as they are. *)
Theorem fast_mode_broadcasts_single_text self (B : nat) s x m :
  count s = 0 → FAST_MODE self = true → in_batch_pairs self = false →
  txt_embedding s = [x] → txt_attention_mask s = [m] →
  ∃ s', reshape_batches self B s = Ok s' ∧
    txt_embedding s' = replicate (length (image_embedding s)) x ∧
    txt_attention_mask s' = replicate (length (image_embedding s)) m ∧
    image_embedding s' = image_embedding s ∧
    image_attention_mask s' = image_attention_mask s ∧
    co_attention_mask s' = co_attention_mask s ∧
    (∀ i : nat, (i < length (image_embedding s))%nat →
       txt_embedding s' !! i = Some x ∧ txt_attention_mask s' !! i = Some m).
Proof.
  intros Hc Hf Hp Hx Hm.
  eexists. split.
  { unfold reshape_batches. rewrite Hc, Hp, Hf.
    rewrite bool_decide_eq_true_2 by done. cbn. rewrite Hc.
    rewrite bool_decide_eq_true_2 by done. cbn.
    unfold fast_broadcast. rewrite Hx, Hm, !expand_axis_singleton.
    reflexivity. }
  cbn. repeat split; try done.
  - now apply lookup_replicate_2.
  - now apply lookup_replicate_2.
Qed.

(** C10.  Both flags set: on the first schedule entry the two branches run
    one after the other, the broadcast on what the pairwise expansion
    produced; with batches of size [B] neither raises and the broadcast
    leaves the expanded tensors as they are. *)
Theorem both_flags_run_in_sequence self (B : nat) s :
  count s = 0 → in_batch_pairs self = true → FAST_MODE self = true →
  length (txt_embedding s) = B → length (txt_attention_mask s) = B →
  length (image_embedding s) = B → length (image_attention_mask s) = B →
  length (co_attention_mask s) = B →
  reshape_batches self B s = pairwise_expansion B s ≫= fast_broadcast ∧
  ∃ s', pairwise_expansion B s = Ok s' ∧ fast_broadcast s' = Ok s' ∧
        reshape_batches self B s = Ok s'.
Proof.
  intros Hc Hp Hf Ht Htm Hi Him Hco.
  assert (Hseq : reshape_batches self B s
                 = pairwise_expansion B s ≫= fast_broadcast).
  { unfold reshape_batches. rewrite Hc, Hp, Hf.
    rewrite bool_decide_eq_true_2 by done. cbn.
    rewrite pairwise_expansion_ok by done. cbn. rewrite Hc.
    rewrite bool_decide_eq_true_2 by done. reflexivity. }
  split; [exact Hseq|].
  eexists. split; [now apply pairwise_expansion_ok|].
  assert (Hfb : ∀ s1, pairwise_expansion B s = Ok s1 → fast_broadcast s1 = Ok s1).
  { intros s1. rewrite pairwise_expansion_ok by done. intros [= <-].
    rewrite fast_broadcast_same; [done| |]; cbn;
      rewrite length_join_replicate_rows, length_join_replicate; congruence. }
  split.
  - apply Hfb. now apply pairwise_expansion_ok.
  - rewrite Hseq, pairwise_expansion_ok by done. cbn.
    apply Hfb. now apply pairwise_expansion_ok.
Qed.

End ReshapeFirstEntry.

(** ** Masks *)

Lemma additive_bias_lookup (mask : Mask) (b i : nat) (row : list Z) (m : Z) :
  mask !! b = Some row → row !! i = Some m →
  ∃ bias_row, additive_bias mask !! b = Some bias_row ∧
              bias_row !! i = Some ((1 - m) * -10000).
Proof.
  intros Hb Hi. unfold additive_bias. eexists. split.
  - rewrite list_lookup_fmap, Hb. reflexivity.
  - rewrite list_lookup_fmap, Hi. reflexivity.
Qed.

Section Masks.
Context {Slice : Type} `{!TensorOps Slice}.

(** C8.  The additive biases [ViLBERTBase.forward] builds from the given 0/1
    masks: at a position whose mask entry is 1 the bias is 0, at a position
    whose entry is 0 it is -10000, for the image mask and for the text mask
    (whose positions are shifted by the one column of ones that
    [task_specific_tokens] puts in front, itself of bias 0). *)
Theorem additive_bias_is_zero_or_minus_10000 (self : ViLBERTBase (Slice := Slice))
    (input_txt : list (list Z)) (image_feature : list (list Slice))
    (attention_mask image_attention_mask : Mask) (co_attention_mask : option CoMask)
    (extended_attention_mask extended_attention_mask2
       extended_image_attention_mask : Mask)
    (extended_co_attention_mask : CoMask) :
  build_masks self input_txt image_feature (Some attention_mask)
    (Some image_attention_mask) co_attention_mask
  = Ok (extended_attention_mask, extended_attention_mask2,
        extended_image_attention_mask, extended_co_attention_mask) →
  (∀ (b i : nat) (row : list Z) (m : Z),
     image_attention_mask !! b = Some row → row !! i = Some m →
     ∃ bias_row, extended_image_attention_mask !! b = Some bias_row ∧
       (m = 1 → bias_row !! i = Some 0) ∧
       (m = 0 → bias_row !! i = Some (-10000))) ∧
  (∀ (b i : nat) (row : list Z) (m : Z),
     attention_mask !! b = Some row → row !! i = Some m →
     ∃ bias_row, extended_attention_mask !! b = Some bias_row ∧
       (m = 1 → bias_row !! ((if task_specific_tokens self then 1 else 0) + i)%nat = Some 0) ∧
       (m = 0 → bias_row !! ((if task_specific_tokens self then 1 else 0) + i)%nat = Some (-10000)) ∧
       (task_specific_tokens self = true → bias_row !! 0%nat = Some 0)).
Proof.
  unfold build_masks. intros Hb.
  destruct (task_specific_tokens self) eqn:Htok; cbn in Hb.
  - unfold cat_mask_tokens in Hb. case_decide; [|done]. cbn in Hb.
    injection Hb as <- <- <- <-. split.
    + intros b i row m Hrow Hm.
      destruct (additive_bias_lookup _ _ _ _ _ Hrow Hm) as (br & ? & ?).
      exists br. split; [done|]. split; intros ->; done.
    + intros b i row m Hrow Hm.
      assert (Hrow' : ((λ row, 1 :: row) <$> attention_mask) !! b
                      = Some (1 :: row))
        by (now rewrite list_lookup_fmap, Hrow).
      destruct (additive_bias_lookup _ b (S i) _ m Hrow' Hm) as (br & ? & ?).
      destruct (additive_bias_lookup _ b 0%nat _ 1 Hrow' eq_refl)
        as (br' & ? & ?).
      assert (br' = br) as -> by congruence.
      exists br. split; [done|]. repeat split; try (intros ->); done.
  - injection Hb as <- <- <- <-. split.
    + intros b i row m Hrow Hm.
      destruct (additive_bias_lookup _ _ _ _ _ Hrow Hm) as (br & ? & ?).
      exists br. split; [done|]. split; intros ->; done.
    + intros b i row m Hrow Hm.
      destruct (additive_bias_lookup _ _ _ _ _ Hrow Hm) as (br & ? & ?).
      exists br. split; [done|]. repeat split; try (intros ->); done.
Qed.

End Masks.

(** ** Witnesses on concrete batches *)

Lemma pairwise_expansion_pairs_text_with_visual_witness :
  (count Inputs.two_by_two = 0 ∧ in_batch_pairs Runs.pairs_encoder = true ∧
   FAST_MODE Runs.pairs_encoder = false ∧
   length (txt_embedding Inputs.two_by_two) = 2%nat ∧
   length (image_embedding Inputs.two_by_two) = 2%nat) ∧
  ∃ s', reshape_batches Runs.pairs_encoder 2 Inputs.two_by_two = Ok s' ∧
        length (txt_embedding s') = 4%nat ∧
        txt_embedding s' !! 1%nat = Some [7] ∧
        image_embedding s' !! 1%nat = Some [10].
Proof.
  split; [done|].
  destruct (pairwise_expansion_pairs_text_with_visual Runs.pairs_encoder 2
              Inputs.two_by_two)
    as (s' & Hs' & (_ & _ & _ & Hlen & _) & Hpair & _); try reflexivity.
  destruct (Hpair 0%nat 1%nat) as (Ht & _ & Hi & _); [lia..|].
  exists s'. done.
Defined.

Lemma fast_mode_broadcasts_single_text_witness :
  (count Inputs.one_by_three = 0 ∧ FAST_MODE Runs.fast_encoder = true ∧
   in_batch_pairs Runs.fast_encoder = false ∧
   txt_embedding Inputs.one_by_three = [[7]] ∧
   txt_attention_mask Inputs.one_by_three = [[0; -10000]]) ∧
  ∃ s', reshape_batches Runs.fast_encoder 1 Inputs.one_by_three = Ok s' ∧
        txt_embedding s' = [[7]; [7]; [7]] ∧
        txt_attention_mask s' = [[0; -10000]; [0; -10000]; [0; -10000]].
Proof.
  split; [done|].
  destruct (fast_mode_broadcasts_single_text Runs.fast_encoder 1
              Inputs.one_by_three [7] [0; -10000])
    as (s' & Hs' & Ht & Hm & _); try reflexivity.
  exists s'. done.
Defined.

Lemma both_flags_run_in_sequence_witness :
  (count Inputs.two_by_two = 0 ∧ in_batch_pairs Runs.both_encoder = true ∧
   FAST_MODE Runs.both_encoder = true ∧
   length (txt_embedding Inputs.two_by_two) = 2%nat ∧
   length (image_embedding Inputs.two_by_two) = 2%nat) ∧
  ∃ s', reshape_batches Runs.both_encoder 2 Inputs.two_by_two = Ok s' ∧
        pairwise_expansion 2 Inputs.two_by_two = Ok s' ∧
        fast_broadcast s' = Ok s'.
Proof.
  split; [done|].
  destruct (both_flags_run_in_sequence Runs.both_encoder 2 Inputs.two_by_two)
    as (_ & s' & Hp & Hf & Hr); try reflexivity.
  exists s'. done.
Defined.

Lemma additive_bias_is_zero_or_minus_10000_witness :
  build_masks Runs.fusion_base [[5; 6]] [[[1]]] (Some [[1; 0]]) (Some [[0]]) None
  = Ok ([[0; -10000]], [[1; 0]], [[-10000]], [[[0; 0]]]) ∧
  (∃ bias_row : list Z,
     [[0; -10000]] !! 0%nat = Some bias_row ∧ bias_row !! 0%nat = Some 0 ∧
     bias_row !! 1%nat = Some (-10000)).
Proof.
  split; [reflexivity|].
  destruct (additive_bias_is_zero_or_minus_10000 Runs.fusion_base [[5; 6]]
              [[[1]]] [[1; 0]] [[0]] None [[0; -10000]] [[1; 0]] [[-10000]]
              [[[0; 0]]] eq_refl) as [_ Htxt].
  destruct (Htxt 0%nat 0%nat [1; 0] 1 eq_refl eq_refl) as (r0 & Hr0 & H1 & _).
  destruct (Htxt 0%nat 1%nat [1; 0] 0 eq_refl eq_refl) as (r1 & Hr1 & _ & H0 & _).
  exists r0. split; [exact Hr0|]. split; [now apply H1|].
  assert (r1 = r0) as <- by congruence. now apply H0.
Defined.

(** ** The co-attention mask *)

Lemma scale_co_attention_zeros (b r w : nat) :
  scale_co_attention (replicate b (replicate r (replicate w 0)))
  = replicate b (replicate r (replicate w 0)).
Proof. unfold scale_co_attention. now rewrite !fmap_replicate. Qed.

Section CoAttention.
Context {Slice : Type} `{!TensorOps Slice}.

(** C2, as the code has it.  The co-attention mask handed to the encoder is
    the given one with every entry multiplied by 5, or a tensor of zeros when
    none is given; but the fusion block does not read it: the outputs of
    [BertBiAttention.forward] and of [BertConnectionLayer.forward] are the
    same for any two co-attention masks and any two values of
    [use_co_attention_mask]. *)
Theorem co_attention_mask_is_scaled_but_never_added
    (self : ViLBERTBase (Slice := Slice)) (input_txt : list (list Z))
    (image_feature : list (list Slice))
    (attention_mask image_attention_mask : option Mask)
    (co_attention_mask : option CoMask)
    (extended_attention_mask extended_attention_mask2
       extended_image_attention_mask : Mask)
    (extended_co_attention_mask : CoMask)
    (m : BertBiAttention (Slice := Slice))
    (c : BertConnectionLayer (Slice := Slice))
    (input_tensor1 input_tensor2 : list Slice)
    (attention_mask1 attention_mask2 : Mask)
    (co co' : option CoMask) (use use' : bool) :
  build_masks self input_txt image_feature attention_mask image_attention_mask
    co_attention_mask
  = Ok (extended_attention_mask, extended_attention_mask2,
        extended_image_attention_mask, extended_co_attention_mask) →
  extended_co_attention_mask
  = match co_attention_mask with
    | Some given => scale_co_attention given
    | None => replicate (length input_txt)
                (replicate (size1 image_feature)
                   (replicate (size1 input_txt) 0))
    end ∧
  BertBiAttention_forward m input_tensor1 attention_mask1 input_tensor2
    attention_mask2 co use
  = BertBiAttention_forward m input_tensor1 attention_mask1 input_tensor2
      attention_mask2 co' use' ∧
  BertConnectionLayer_forward c input_tensor1 attention_mask1 input_tensor2
    attention_mask2 co use
  = BertConnectionLayer_forward c input_tensor1 attention_mask1 input_tensor2
      attention_mask2 co' use'.
Proof.
  intros Hb. split; [|split; reflexivity].
  unfold build_masks in Hb.
  destruct (if task_specific_tokens self then _ else _) as [am|]; [|done].
  cbn in Hb. injection Hb as _ _ _ <-.
  destruct co_attention_mask; [done|]. apply scale_co_attention_zeros.
Qed.

End CoAttention.

Lemma co_attention_mask_is_scaled_but_never_added_witness :
  build_masks Runs.fusion_base [[5; 6]] [[[1]]] (Some [[1; 0]]) (Some [[0]])
    (Some [[[1; 2]]])
  = Ok ([[0; -10000]], [[1; 0]], [[-10000]], [[[5; 10]]]) ∧
  [[[5; 10]]] = scale_co_attention [[[1; 2]]] ∧
  BertBiAttention_forward Marker.bi_attention [[9]] [[0]] [[7]] [[0]]
    (Some [[[5]]]) true
  = BertBiAttention_forward Marker.bi_attention [[9]] [[0]] [[7]] [[0]]
      None false.
Proof.
  split; [reflexivity|].
  destruct (co_attention_mask_is_scaled_but_never_added Runs.fusion_base
              [[5; 6]] [[[1]]] (Some [[1; 0]]) (Some [[0]]) (Some [[[1; 2]]])
              [[0; -10000]] [[1; 0]] [[-10000]] [[[5; 10]]]
              Marker.bi_attention (Marker.fusion_layer 0) [[9]] [[7]]
              [[0]] [[0]] (Some [[[5]]]) None true false eq_refl)
    as (Hscale & Hbi & _).
  split; [exact Hscale | exact Hbi].
Defined.

(** C2, as stated, fails: two forward passes that differ only in a nonzero
    co-attention mask, through an encoder that runs its fusion block, end in
    the same outputs. *)
Lemma co_attention_mask_changes_no_output :
  scale_co_attention [[[1]]] ≠ scale_co_attention [[[0]]] ∧
  is_ok (Runs.forward_with_co (Some [[[1]]]) true) = true ∧
  Runs.forward_with_co (Some [[[1]]]) true
  = Runs.forward_with_co (Some [[[0]]]) true ∧
  BertConnectionLayer_forward (Marker.fusion_layer 0) [[9]] [[0]] [[7]] [[0]]
    (Some [[[5]]]) true
  = BertConnectionLayer_forward (Marker.fusion_layer 0) [[9]] [[0]] [[7]] [[0]]
      (Some [[[0]]]) true.
Proof. repeat split; done. Qed.

(** ** Construction *)

Section ConstructionFacts.
Context {Slice : Type} `{!TensorOps Slice}.
Implicit Types (config : Config.t) (w : Modules (Slice := Slice)).

Lemma BertEncoder_init_is_ok config w :
  is_ok (BertEncoder_init config w) = heads_divide config.
Proof.
  unfold BertEncoder_init, heads_divide.
  destruct (check_heads (Config.hidden_size config) _) as [[]|]; [|done].
  destruct (check_heads (Config.v_hidden_size config) _) as [[]|]; [|done].
  destruct (check_heads (Config.bi_hidden_size config) _) as [[]|]; done.
Qed.

Lemma BertEncoder_init_stores config w e :
  BertEncoder_init config w = Ok e →
  e = {| FAST_MODE := Config.fast_mode config;
         with_coattention := Config.with_coattention config;
         v_biattention_id := Config.v_biattention_id config;
         t_biattention_id := Config.t_biattention_id config;
         in_batch_pairs := Config.in_batch_pairs config;
         fixed_t_layer := Config.fixed_t_layer config;
         fixed_v_layer := Config.fixed_v_layer config;
         layer := stack (mk_layer w) (Config.num_hidden_layers config);
         v_layer := stack (mk_v_layer w) (Config.v_num_hidden_layers config);
         c_layer := stack (mk_c_layer w)
                      (Z.of_nat (length (Config.v_biattention_id config))) |}.
Proof.
  unfold BertEncoder_init.
  destruct (check_heads (Config.hidden_size config) _) as [[]|]; [|done].
  destruct (check_heads (Config.v_hidden_size config) _) as [[]|]; [|done].
  destruct (check_heads (Config.bi_hidden_size config) _) as [[]|]; [|done].
  cbn. now intros [= <-].
Qed.

(** C4, as the code has it.  [BertEncoder.__init__] succeeds exactly when the
    three head counts divide their widths: the schedule is stored as given,
    whatever its order, with one fusion block per visual depth. *)
Theorem encoder_construction_does_not_inspect_schedule config w :
  is_ok (BertEncoder_init config w) = heads_divide config ∧
  ∀ e, BertEncoder_init config w = Ok e →
    v_biattention_id e = Config.v_biattention_id config ∧
    t_biattention_id e = Config.t_biattention_id config ∧
    length (c_layer e) = length (Config.v_biattention_id config).
Proof.
  split; [apply BertEncoder_init_is_ok|].
  intros e He. rewrite (BertEncoder_init_stores _ _ _ He). cbn.
  repeat split. unfold stack. now rewrite length_fmap, length_seq, Nat2Z.id.
Qed.

End ConstructionFacts.

(** C4, as stated, fails: a schedule whose text depths go from 2 down to 1 is
    accepted by the constructor, and by the forward pass, which then runs
    text layer 1 twice. *)
Lemma decreasing_schedule_is_accepted :
  non_decreasing (zip (Config.v_biattention_id Inputs.decreasing)
                    (Config.t_biattention_id Inputs.decreasing)) = false ∧
  is_ok (BertEncoder_init Inputs.decreasing (Marker.modules false)) = true ∧
  Inputs.view (Runs.run false Inputs.decreasing false)
  = Ok ([[0; 1; 1; 2]], [[100]], [[[0; 1; 1; 2]]], [[[100]]],
        [CallLayer with_grad 0; CallLayer with_grad 1; CallVLayer with_grad 0;
         CallLayer with_grad 1; CallLayer with_grad 2]).
Proof. repeat split; vm_compute; reflexivity. Qed.

(** ** The fusion method *)

Section FusionMethod.
Context {Slice : Type} `{!TensorOps Slice}.
Implicit Types (config : Config.t) (w : Modules (Slice := Slice)).

Lemma fuse_pooled_unsupported (fusion_method : string)
    (dropout : list Slice → list Slice) (t v : list Slice) :
  fusion_method ≠ "sum" → fusion_method ≠ "mul" →
  fuse_pooled fusion_method dropout t v = Raise AssertionError.
Proof.
  intros Hs Hm. unfold fuse_pooled.
  now rewrite !decide_False by done.
Qed.

(** C3, as the code has it.  With a fusion method that is neither "sum" nor
    "mul", construction succeeds (the method is only stored); the
    AssertionError comes from the forward pass: [ViLBERTExpert.forward] raises
    it once [ViLBERTBase.forward] has returned (an exception of that call
    comes first), [BertPreTrainingHeads.forward] raises it as its first step.
    With "sum" the pooled vectors are added and with "mul" multiplied, then
    given to the dropout. *)
Theorem unsupported_fusion_method_raises_in_forward config w :
  heads_divide config = true →
  Config.fusion_method config ≠ "sum" →
  Config.fusion_method config ≠ "mul" →
  (∃ self, ViLBERTExpert_init config w = Ok self ∧
     fusion_method self = Config.fusion_method config ∧
     ∀ input_ids image_feature image_location token_type_ids attention_mask
       image_attention_mask output_all_attention_masks,
       ViLBERTExpert_forward self input_ids image_feature image_location
         token_type_ids attention_mask image_attention_mask
         output_all_attention_masks
       = ViLBERTBase_forward (bert self) input_ids image_feature
           image_location token_type_ids attention_mask image_attention_mask
           None None false output_all_attention_masks
         ≫= λ _, Raise AssertionError) ∧
  (∀ predictions bi_seq_relationship imagePredictions dropout
     sequence_output_t sequence_output_v pooled_output_t pooled_output_v,
     BertPreTrainingHeads_forward
       (BertPreTrainingHeads_init config predictions bi_seq_relationship
          imagePredictions dropout)
       sequence_output_t sequence_output_v pooled_output_t pooled_output_v
     = Raise AssertionError) ∧
  (∀ (dropout : list Slice → list Slice) pooled_output_t pooled_output_v,
     fuse_pooled "sum" dropout pooled_output_t pooled_output_v
     = Ok (dropout (add pooled_output_t pooled_output_v)) ∧
     fuse_pooled "mul" dropout pooled_output_t pooled_output_v
     = Ok (dropout (mul pooled_output_t pooled_output_v))).
Proof.
  intros Hheads Hsum Hmul. split; [|split].
  - pose proof (BertEncoder_init_is_ok config w) as Hok.
    rewrite Hheads in Hok.
    unfold ViLBERTExpert_init, ViLBERTBase_init.
    destruct (BertEncoder_init config w) as [enc|]; [|done]. cbn.
    eexists. split; [reflexivity|]. split; [reflexivity|].
    intros. unfold ViLBERTExpert_forward.
    cbn [bert fusion_method dropout training_head_type].
    match goal with
    | |- context [ViLBERTBase_forward ?b ?a1 ?a2 ?a3 ?a4 ?a5 ?a6 ?a7 ?a8 ?a9 ?a10] =>
      destruct (ViLBERTBase_forward b a1 a2 a3 a4 a5 a6 a7 a8 a9 a10)
        as [out|]; [|done]
    end.
    cbn. now rewrite fuse_pooled_unsupported.
  - intros. unfold BertPreTrainingHeads_forward. cbn.
    now rewrite fuse_pooled_unsupported.
  - intros. split; reflexivity.
Qed.

End FusionMethod.

Lemma unsupported_fusion_method_raises_in_forward_witness :
  (heads_divide (Inputs.one_fusion true false false "xor") = true ∧
   Config.fusion_method (Inputs.one_fusion true false false "xor") ≠ "sum" ∧
   Config.fusion_method (Inputs.one_fusion true false false "xor") ≠ "mul") ∧
  ∃ self,
    ViLBERTExpert_init (Inputs.one_fusion true false false "xor")
      (Marker.modules false) = Ok self ∧
    ViLBERTExpert_forward self [[7]] [[[9]]] [[[0]]] None None None false
    = Raise AssertionError.
Proof.
  split; [done|].
  destruct (unsupported_fusion_method_raises_in_forward
              (Inputs.one_fusion true false false "xor") (Marker.modules false))
    as ((self & Hinit & _ & Hfwd) & _); [done..|].
  exists self. split; [exact Hinit|].
  rewrite Hfwd. vm_compute in Hinit. injection Hinit as <-. reflexivity.
Defined.

(** C3, as stated, fails: with the fusion method "xor" the construction
    succeeds, and the forward pass runs the whole encoder (the ghost log of
    the same encoder is not empty) before the method is looked at. *)
Lemma xor_fusion_method_is_constructed :
  is_ok (ViLBERTExpert_init (Inputs.one_fusion true false false "xor")
           (Marker.modules false)) = true ∧
  Inputs.view (Runs.run false (Inputs.one_fusion true false false "xor") false)
  = Ok ([[0; 1; 200; 2]], [[100; 200; 101]], [[[0; 1; 200; 2]]],
        [[[100; 200; 101]]],
        [CallLayer with_grad 0; CallLayer with_grad 1; CallVLayer with_grad 0;
         CallCLayer 0; CallVLayer with_grad 1; CallLayer with_grad 2]).
Proof. split; vm_compute; reflexivity. Qed.

(** ** The frozen range *)

(** C1, on the code.  Three text layers, the first two frozen
    ([fixed_t_layer = 2]), one schedule entry of text depth 2: the first loop
    runs layer 0 without gradient and assigns [t_start = 2] at once, so that
    layer 1, whose index is inside [0, 2), is never run; the text stream ends
    with the tags of layers 0 and 2 only. *)
Lemma frozen_range_runs_its_first_layer_only :
  Inputs.view (Runs.run false Inputs.frozen_two false)
  = Ok ([[0; 2]], [[100]], [[[0; 2]]], [[[100]]],
        [CallLayer no_grad 0; CallVLayer with_grad 0; CallLayer with_grad 2]).
Proof. vm_compute. reflexivity. Qed.

(** ** The loops of [BertEncoder.forward] *)

Section Loops.
Context {Slice : Type} `{!TensorOps Slice}.
Variable self : BertEncoder (Slice := Slice).
Variable mask2 : Mask.
Variables b oam : bool.
Implicit Types (s : Locals (Slice := Slice)) (i : Z).

Lemma fusion_calls_snoc s c :
  is_fusion_call c = false →
  filter (λ c, is_fusion_call c = true) (calls s ++ [c])
  = filter (λ c, is_fusion_call c = true) (calls s).
Proof.
  intros Hc. rewrite filter_app, filter_cons_False, filter_nil, app_nil_r;
    [done|]. now rewrite Hc.
Qed.

Lemma beside_text_assign_txt s r c :
  is_fusion_call c = false →
  beside_text (assign_txt oam s r c) = beside_text s.
Proof.
  intros Hc. unfold beside_text, fusion_calls. cbn.
  now rewrite fusion_calls_snoc.
Qed.

Lemma beside_image_assign_image s r c :
  is_fusion_call c = false →
  beside_image (assign_image oam s r c) = beside_image s.
Proof.
  intros Hc. unfold beside_image, fusion_calls. cbn.
  now rewrite fusion_calls_snoc.
Qed.

(** *** Straight-line runs *)

Lemma run_layers_beside ls i s :
  beside_text (run_layers oam ls i s) = beside_text s.
Proof.
  revert i s. induction ls as [|l ls IH]; intros i s; cbn; [done|].
  now rewrite IH, beside_text_assign_txt.
Qed.

Lemma run_layers_t_start ls i s :
  t_start (run_layers oam ls i s) = t_start s.
Proof. revert i s. induction ls as [|l ls IH]; intros; cbn; [done|]. now rewrite IH. Qed.

Lemma run_layers_txt ls i s :
  txt_embedding (run_layers oam ls i s)
  = run_text_stack ls (txt_attention_mask s) (txt_embedding s).
Proof.
  revert i s. induction ls as [|l ls IH]; intros i s; cbn; [done|].
  now rewrite IH.
Qed.

Lemma run_v_layers_beside ls i s :
  beside_image (run_v_layers mask2 oam ls i s) = beside_image s.
Proof.
  revert i s. induction ls as [|l ls IH]; intros i s; cbn; [done|].
  now rewrite IH, beside_image_assign_image.
Qed.

Lemma run_v_layers_v_start ls i s :
  v_start (run_v_layers mask2 oam ls i s) = v_start s.
Proof. revert i s. induction ls as [|l ls IH]; intros; cbn; [done|]. now rewrite IH. Qed.

Lemma run_v_layers_image ls i s :
  image_embedding (run_v_layers mask2 oam ls i s)
  = run_visual_stack ls (image_attention_mask s) (txt_embedding s) mask2
      (image_embedding s).
Proof.
  revert i s. induction ls as [|l ls IH]; intros i s; cbn; [done|].
  now rewrite IH.
Qed.

(** *** The range loops are straight-line runs of a segment of the stack *)

Lemma text_loop_segment t_end ls i s :
  text_loop oam t_end ls i s
  = run_layers oam
      (drop (Z.to_nat (t_start s - i)) (take (Z.to_nat (t_end - i)) ls))
      (Z.max i (t_start s)) s.
Proof.
  revert i s. induction ls as [|l ls IH]; intros i s.
  { now rewrite take_nil, drop_nil. }
  cbn [text_loop]. rewrite IH. case_bool_decide as Hc.
  - replace (Z.to_nat (t_start s - i)) with 0%nat by lia.
    replace (Z.to_nat (t_end - i)) with (S (Z.to_nat (t_end - (i + 1)))) by lia.
    cbn. replace (Z.to_nat (t_start s - (i + 1))) with 0%nat by lia.
    replace (Z.max (i + 1) (t_start s)) with (i + 1) by lia.
    replace (Z.max i (t_start s)) with i by lia. done.
  - destruct (decide (t_end ≤ i)) as [Hle|Hgt].
    + replace (Z.to_nat (t_end - (i + 1))) with 0%nat by lia.
      replace (Z.to_nat (t_end - i)) with 0%nat by lia.
      now rewrite !take_0, !drop_nil.
    + assert (i < t_start s) by lia.
      replace (Z.to_nat (t_start s - i))
        with (S (Z.to_nat (t_start s - (i + 1)))) by lia.
      replace (Z.to_nat (t_end - i))
        with (S (Z.to_nat (t_end - (i + 1)))) by lia.
      cbn. replace (Z.max (i + 1) (t_start s)) with (Z.max i (t_start s)) by lia.
      done.
Qed.

Lemma visual_loop_segment v_end ls i s :
  visual_loop mask2 oam v_end ls i s
  = run_v_layers mask2 oam
      (drop (Z.to_nat (v_start s - i)) (take (Z.to_nat (v_end - i)) ls))
      (Z.max i (v_start s)) s.
Proof.
  revert i s. induction ls as [|l ls IH]; intros i s.
  { now rewrite take_nil, drop_nil. }
  cbn [visual_loop]. rewrite IH. case_bool_decide as Hc.
  - replace (Z.to_nat (v_start s - i)) with 0%nat by lia.
    replace (Z.to_nat (v_end - i)) with (S (Z.to_nat (v_end - (i + 1)))) by lia.
    cbn. replace (Z.to_nat (v_start s - (i + 1))) with 0%nat by lia.
    replace (Z.max (i + 1) (v_start s)) with (i + 1) by lia.
    replace (Z.max i (v_start s)) with i by lia. done.
  - destruct (decide (v_end ≤ i)) as [Hle|Hgt].
    + replace (Z.to_nat (v_end - (i + 1))) with 0%nat by lia.
      replace (Z.to_nat (v_end - i)) with 0%nat by lia.
      now rewrite !take_0, !drop_nil.
    + assert (i < v_start s) by lia.
      replace (Z.to_nat (v_start s - i))
        with (S (Z.to_nat (v_start s - (i + 1)))) by lia.
      replace (Z.to_nat (v_end - i))
        with (S (Z.to_nat (v_end - (i + 1)))) by lia.
      cbn. replace (Z.max (i + 1) (v_start s)) with (Z.max i (v_start s)) by lia.
      done.
Qed.

Lemma tail_text_loop_segment ls i s :
  tail_text_loop oam ls i s
  = run_layers oam (drop (Z.to_nat (t_start s - i)) ls) (Z.max i (t_start s)) s.
Proof.
  revert i s. induction ls as [|l ls IH]; intros i s.
  { now rewrite drop_nil. }
  cbn [tail_text_loop]. rewrite IH. case_bool_decide as Hc.
  - replace (Z.to_nat (t_start s - i)) with 0%nat by lia.
    cbn. replace (Z.to_nat (t_start s - (i + 1))) with 0%nat by lia.
    replace (Z.max (i + 1) (t_start s)) with (i + 1) by lia.
    replace (Z.max i (t_start s)) with i by lia. done.
  - replace (Z.to_nat (t_start s - i))
      with (S (Z.to_nat (t_start s - (i + 1)))) by lia.
    cbn. replace (Z.max (i + 1) (t_start s)) with (Z.max i (t_start s)) by lia.
    done.
Qed.

Lemma tail_visual_loop_segment ls i s :
  tail_visual_loop mask2 oam ls i s
  = run_v_layers mask2 oam (drop (Z.to_nat (v_start s - i)) ls)
      (Z.max i (v_start s)) s.
Proof.
  revert i s. induction ls as [|l ls IH]; intros i s.
  { now rewrite drop_nil. }
  cbn [tail_visual_loop]. rewrite IH. case_bool_decide as Hc.
  - replace (Z.to_nat (v_start s - i)) with 0%nat by lia.
    cbn. replace (Z.to_nat (v_start s - (i + 1))) with 0%nat by lia.
    replace (Z.max (i + 1) (v_start s)) with (i + 1) by lia.
    replace (Z.max i (v_start s)) with i by lia. done.
  - replace (Z.to_nat (v_start s - i))
      with (S (Z.to_nat (v_start s - (i + 1)))) by lia.
    cbn. replace (Z.max (i + 1) (v_start s)) with (Z.max i (v_start s)) by lia.
    done.
Qed.

(** *** The frozen loops run at most one layer *)

(** Once the boundary is not above the index or not above [t_start], the
    test of the first text loop fails for the rest of the stack. *)
Lemma frozen_text_loop_idle ls i s :
  fixed_t_layer self ≤ i ∨ fixed_t_layer self ≤ t_start s →
  frozen_text_loop self oam ls i s = s.
Proof.
  revert i. induction ls as [|l ls IH]; intros i Hi; cbn; [done|].
  rewrite bool_decide_eq_false_2 by lia. apply IH. lia.
Qed.

(** When the test succeeds, the layer at hand is run, [t_start] jumps to the
    boundary, and no later layer passes the test. *)
Lemma frozen_text_loop_fire l ls i s :
  t_start s ≤ i < fixed_t_layer self →
  frozen_text_loop self oam (l :: ls) i s
  = set_t_start
      (assign_txt oam s
         (forward_no_grad l (txt_embedding s) (txt_attention_mask s))
         (CallLayer no_grad i))
      (fixed_t_layer self).
Proof.
  intros Hi. cbn. rewrite bool_decide_eq_true_2 by done.
  apply frozen_text_loop_idle. right. cbn. lia.
Qed.

Lemma frozen_visual_loop_idle ls i s :
  fixed_v_layer self ≤ i ∨ fixed_v_layer self ≤ v_start s →
  frozen_visual_loop self mask2 oam ls i s = s.
Proof.
  revert i. induction ls as [|l ls IH]; intros i Hi; cbn; [done|].
  rewrite bool_decide_eq_false_2 by lia. apply IH. lia.
Qed.

Lemma frozen_visual_loop_fire l ls i s :
  v_start s ≤ i < fixed_v_layer self →
  frozen_visual_loop self mask2 oam (l :: ls) i s
  = set_v_start
      (assign_image oam s
         (v_forward_no_grad l (image_embedding s) (image_attention_mask s)
            (txt_embedding s) mask2)
         (CallVLayer no_grad i))
      (fixed_v_layer self).
Proof.
  intros Hi. cbn. rewrite bool_decide_eq_true_2 by done.
  apply frozen_visual_loop_idle. right. cbn. lia.
Qed.

(** While [t_start] is above the index, the first text loop only skips. *)
Lemma frozen_text_loop_skip ls i s :
  frozen_text_loop self oam ls i s
  = frozen_text_loop self oam (drop (Z.to_nat (t_start s - i)) ls)
      (Z.max i (t_start s)) s.
Proof.
  revert i. induction ls as [|l ls IH]; intros i.
  { now rewrite drop_nil. }
  destruct (decide (t_start s ≤ i)) as [Hle|Hgt].
  - replace (Z.to_nat (t_start s - i)) with 0%nat by lia.
    replace (Z.max i (t_start s)) with i by lia. done.
  - cbn [frozen_text_loop]. rewrite bool_decide_eq_false_2 by lia.
    rewrite IH.
    replace (Z.to_nat (t_start s - i))
      with (S (Z.to_nat (t_start s - (i + 1)))) by lia.
    cbn [drop]. now replace (Z.max (i + 1) (t_start s))
                  with (Z.max i (t_start s)) by lia.
Qed.

End Loops.

(** ** The two lists of encoded layers *)

Section Encoded.
Context {Slice : Type} `{!TensorOps Slice}.
Variable self : BertEncoder (Slice := Slice).
Variable mask2 : Mask.
Variables b oam : bool.
Implicit Types (s : Locals (Slice := Slice)) (i : Z).

(** The two lists, and for the loops below all that they leave alone. *)
Local Abbreviation encoded s := (all_encoder_layers_t s, all_encoder_layers_v s).

Lemma run_layers_encoded ls i s :
  encoded (run_layers oam ls i s) = encoded s.
Proof.
  pose proof (run_layers_beside oam ls i s) as Hb. unfold beside_text in Hb.
  congruence.
Qed.

Lemma run_v_layers_encoded ls i s :
  encoded (run_v_layers mask2 oam ls i s) = encoded s.
Proof.
  pose proof (run_v_layers_beside mask2 oam ls i s) as Hb.
  unfold beside_image in Hb. congruence.
Qed.

Lemma frozen_text_loop_encoded ls i s :
  encoded (frozen_text_loop self oam ls i s) = encoded s.
Proof.
  revert i s. induction ls as [|l ls IH]; intros i s; cbn; [done|].
  rewrite IH. now case_bool_decide.
Qed.

Lemma frozen_visual_loop_encoded ls i s :
  encoded (frozen_visual_loop self mask2 oam ls i s) = encoded s.
Proof.
  revert i s. induction ls as [|l ls IH]; intros i s; cbn; [done|].
  rewrite IH. now case_bool_decide.
Qed.

Lemma fusion_loop_encoded ls i s :
  encoded (fusion_loop oam ls i s) = encoded s.
Proof.
  revert i s. induction ls as [|l ls IH]; intros i s; cbn; [done|].
  rewrite IH. now case_bool_decide.
Qed.

Lemma pairwise_expansion_encoded (B : nat) s s' :
  pairwise_expansion B s = Ok s' → encoded s' = encoded s.
Proof.
  unfold pairwise_expansion. intros Hs'.
  destruct (expand_view0 B (image_embedding s)); [|done].
  destruct (expand_view0 B (image_attention_mask s)); [|done].
  destruct (expand_view1 B (txt_embedding s)); [|done].
  destruct (expand_view1 B (txt_attention_mask s)); [|done].
  destruct (expand_view1 B (co_attention_mask s)); [|done].
  cbn in Hs'. now injection Hs' as <-.
Qed.

Lemma fast_broadcast_encoded s s' :
  fast_broadcast s = Ok s' → encoded s' = encoded s.
Proof.
  unfold fast_broadcast. intros Hs'.
  destruct (Tensor.expand_axis _ (txt_embedding s)); [|done].
  destruct (Tensor.expand_axis _ (txt_attention_mask s)); [|done].
  cbn in Hs'. now injection Hs' as <-.
Qed.

Lemma reshape_batches_encoded (B : nat) s s' :
  reshape_batches self B s = Ok s' → encoded s' = encoded s.
Proof.
  unfold reshape_batches. intros Hs'.
  destruct (bool_decide (count s = 0) && in_batch_pairs self).
  - destruct (pairwise_expansion B s) as [s1|] eqn:H1; [|done]. cbn in Hs'.
    rewrite <- (pairwise_expansion_encoded _ _ _ H1).
    destruct (bool_decide (count s1 = 0) && FAST_MODE self).
    + now apply fast_broadcast_encoded.
    + now injection Hs' as <-.
  - cbn in Hs'.
    destruct (bool_decide (count s = 0) && FAST_MODE self).
    + now apply fast_broadcast_encoded.
    + now injection Hs' as <-.
Qed.

(** One schedule entry appends the two streams it ends with, or nothing. *)
Lemma schedule_entry_encoded (B : nat) s s' v_layer_id t_layer_id :
  schedule_entry self mask2 b oam B s v_layer_id t_layer_id = Ok s' →
  encoded s'
  = if b then (all_encoder_layers_t s ++ [txt_embedding s'],
               all_encoder_layers_v s ++ [image_embedding s'])
    else encoded s.
Proof.
  unfold schedule_entry. intros Hs'.
  destruct (negb (bool_decide (fixed_t_layer self ≤ t_layer_id))); [done|].
  destruct (negb (bool_decide (fixed_v_layer self ≤ v_layer_id))); [done|].
  match type of Hs' with
  | context [reshape_batches self B ?s1] =>
    destruct (reshape_batches self B s1) as [s2|] eqn:H2; [|done];
    assert (H1 : encoded s1 = encoded s)
  end.
  { rewrite visual_loop_segment, run_v_layers_encoded,
      frozen_visual_loop_encoded, text_loop_segment, run_layers_encoded,
      frozen_text_loop_encoded. done. }
  apply reshape_batches_encoded in H2. cbn in Hs'.
  assert (H3 : encoded (if with_coattention self
                        then fusion_loop oam (c_layer self) 0 s2 else s2)
               = encoded s).
  { destruct (with_coattention self);
      [rewrite fusion_loop_encoded|]; congruence. }
  injection Hs' as <-. cbn. injection H3 as -> ->. now destruct b.
Qed.

(** Without the request for all encoded layers the schedule loop leaves the
    two lists alone. *)
Lemma schedule_loop_encoded_unchanged (B : nat) schedule s s' :
  b = false →
  schedule_loop self mask2 b oam B schedule s = Ok s' →
  encoded s' = encoded s.
Proof.
  intros Hb. revert s.
  induction schedule as [|[v t] schedule IH]; intros s Hs'; cbn in Hs'.
  - now injection Hs' as <-.
  - destruct (schedule_entry self mask2 b oam B s v t) as [s1|] eqn:H1; [|done].
    cbn in Hs'. apply schedule_entry_encoded in H1. rewrite Hb in H1.
    apply IH in Hs'. congruence.
Qed.

(** With the request, every entry appends one element to each list. *)
Lemma schedule_loop_encoded_length (B : nat) schedule s s' :
  b = true →
  schedule_loop self mask2 b oam B schedule s = Ok s' →
  length (all_encoder_layers_t s')
  = (length (all_encoder_layers_t s) + length schedule)%nat ∧
  length (all_encoder_layers_v s')
  = (length (all_encoder_layers_v s) + length schedule)%nat.
Proof.
  intros Hb. revert s.
  induction schedule as [|[v t] schedule IH]; intros s Hs'; cbn in Hs'.
  - injection Hs' as <-. cbn. lia.
  - destruct (schedule_entry self mask2 b oam B s v t) as [s1|] eqn:H1; [|done].
    cbn in Hs'. apply schedule_entry_encoded in H1. rewrite Hb in H1.
    apply IH in Hs'. injection H1 as Ht Hv.
    rewrite Ht, Hv, !length_app in Hs'. cbn in *. lia.
Qed.

(** And the last element of each list is the stream as the loop leaves it. *)
Lemma schedule_loop_encoded_last (B : nat) schedule s s' :
  b = true →
  schedule ≠ [] ∨
    (last (all_encoder_layers_t s) = Some (txt_embedding s) ∧
     last (all_encoder_layers_v s) = Some (image_embedding s)) →
  schedule_loop self mask2 b oam B schedule s = Ok s' →
  last (all_encoder_layers_t s') = Some (txt_embedding s') ∧
  last (all_encoder_layers_v s') = Some (image_embedding s').
Proof.
  intros Hb. revert s.
  induction schedule as [|[v t] schedule IH]; intros s Hlast Hs'; cbn in Hs'.
  - injection Hs' as <-. now destruct Hlast.
  - destruct (schedule_entry self mask2 b oam B s v t) as [s1|] eqn:H1; [|done].
    cbn in Hs'. apply schedule_entry_encoded in H1. rewrite Hb in H1.
    injection H1 as Ht Hv.
    apply (IH s1); [|done]. right. now rewrite Ht, Hv, !last_snoc.
Qed.

End Encoded.

Section EncodedOutputs.
Context {Slice : Type} `{!TensorOps Slice}.

Lemma run_tail_encoded (enc : BertEncoder (Slice := Slice)) (mask2 : Mask)
    (oam : bool) (s : Locals) :
  (all_encoder_layers_t (run_tail enc mask2 oam s),
   all_encoder_layers_v (run_tail enc mask2 oam s))
  = (all_encoder_layers_t s, all_encoder_layers_v s).
Proof.
  unfold run_tail.
  now rewrite tail_text_loop_segment, run_layers_encoded,
    tail_visual_loop_segment, run_v_layers_encoded.
Qed.

(** C9.  [ViLBERTBase.forward] on the locals [s] the schedule loop ends
    with.  When all encoded layers are asked for and the schedule is not
    empty, the two sequence outputs are the streams of [s], as they are right
    after the last schedule entry, the pooled vectors are pooled from them,
    and the lists returned have one element per schedule entry: what the
    layers after the schedule compute, the streams of [run_tail s], is not
    returned.  When they are not asked for, each list of the encoder has
    exactly one element, the stream of [run_tail s], and the sequence outputs
    are these. *)
Theorem encoded_layers_end_at_last_schedule_entry
    (self : ViLBERTBase (Slice := Slice)) (input_txt : list (list Z))
    (image_feature image_location : list (list Slice))
    (token_type_ids : option (list (list Z)))
    (attention_mask image_attention_mask : option Mask)
    (co_attention_mask : option CoMask) (task_ids : option (list (list Z)))
    (output_all_attention_masks : bool)
    (extended_attention_mask extended_attention_mask2
       extended_image_attention_mask : Mask)
    (extended_co_attention_mask : CoMask)
    (embedding_output v_embedding_output : list Slice)
    (schedule : list (Z * Z)) :
  build_masks self input_txt image_feature attention_mask image_attention_mask
    co_attention_mask
  = Ok (extended_attention_mask, extended_attention_mask2,
        extended_image_attention_mask, extended_co_attention_mask) →
  embedding_output
  = embeddings self input_txt
      (match token_type_ids with
       | None => fmap (M := list) (fmap (M := list) (λ _, 0)) input_txt
       | Some t => t
       end) task_ids →
  v_embedding_output = v_embeddings self image_feature image_location →
  schedule = zip (v_biattention_id (encoder self))
               (t_biattention_id (encoder self)) →
  (∀ s,
     schedule_loop (encoder self) extended_attention_mask2 true
       output_all_attention_masks (length embedding_output) schedule
       (initial embedding_output v_embedding_output extended_attention_mask
          extended_image_attention_mask extended_co_attention_mask) = Ok s →
     schedule ≠ [] →
     ∃ out lt lv,
       ViLBERTBase_forward self input_txt image_feature image_location
         token_type_ids attention_mask image_attention_mask co_attention_mask
         task_ids true output_all_attention_masks = Ok out ∧
       sequence_output_t out = txt_embedding s ∧
       sequence_output_v out = image_embedding s ∧
       pooled_output_t out = Pooler_forward (t_pooler self) (txt_embedding s) ∧
       pooled_output_v out
       = Pooler_forward (v_pooler self) (image_embedding s) ∧
       encoded_layers_t_output out = Some lt ∧
       encoded_layers_v_output out = Some lv ∧
       length lt = length schedule ∧ length lv = length schedule) ∧
  (∀ s,
     schedule_loop (encoder self) extended_attention_mask2 false
       output_all_attention_masks (length embedding_output) schedule
       (initial embedding_output v_embedding_output extended_attention_mask
          extended_image_attention_mask extended_co_attention_mask) = Ok s →
     let final :=
       run_tail (encoder self) extended_attention_mask2
         output_all_attention_masks s in
     ∃ out attention,
       BertEncoder_forward (encoder self) extended_attention_mask2 false
         output_all_attention_masks embedding_output v_embedding_output
         extended_attention_mask extended_image_attention_mask
         extended_co_attention_mask
       = Ok ([txt_embedding final], [image_embedding final], attention) ∧
       ViLBERTBase_forward self input_txt image_feature image_location
         token_type_ids attention_mask image_attention_mask co_attention_mask
         task_ids false output_all_attention_masks = Ok out ∧
       sequence_output_t out = txt_embedding final ∧
       sequence_output_v out = image_embedding final ∧
       encoded_layers_t_output out = None ∧
       encoded_layers_v_output out = None).
Proof.
  intros Hmasks -> -> ->. split.
  - intros s Hs Hne.
    destruct (schedule_loop_encoded_last _ _ _ _ _ _ _ _ eq_refl
                (or_introl Hne) Hs) as [Hlt Hlv].
    destruct (schedule_loop_encoded_length _ _ _ _ _ _ _ _ eq_refl Hs)
      as [Hnt Hnv].
    pose proof (run_tail_encoded (encoder self) extended_attention_mask2
                  output_all_attention_masks s) as Htail.
    injection Htail as Ht Hv.
    unfold ViLBERTBase_forward. rewrite Hmasks. cbn.
    unfold BertEncoder_forward, BertEncoder_run. rewrite Hs. cbn.
    unfold last_item. rewrite Ht, Hv, Hlt, Hlv. cbn.
    do 3 eexists. repeat split; try reflexivity; cbn in *; lia.
  - intros s Hs final.
    pose proof (schedule_loop_encoded_unchanged _ _ _ _ _ _ _ _ eq_refl Hs)
      as Hsame.
    pose proof (run_tail_encoded (encoder self) extended_attention_mask2
                  output_all_attention_masks s) as Htail.
    cbn in Hsame. injection Hsame as Hst Hsv. injection Htail as Ht Hv.
    fold final in Ht, Hv.
    assert (Henc :
      BertEncoder_forward (encoder self) extended_attention_mask2 false
        output_all_attention_masks
        (embeddings self input_txt
           (match token_type_ids with
            | None => fmap (M := list) (fmap (M := list) (λ _, 0)) input_txt
            | Some t => t
            end) task_ids)
        (v_embeddings self image_feature image_location)
        extended_attention_mask extended_image_attention_mask
        extended_co_attention_mask
      = Ok ([txt_embedding final], [image_embedding final],
            (all_attention_mask_t final, all_attnetion_mask_v final,
             all_attention_mask_c final))).
    { unfold BertEncoder_forward, BertEncoder_run. rewrite Hs. cbn.
      fold final. unfold returned. cbn. now rewrite Ht, Hv, Hst, Hsv. }
    do 2 eexists. split; [exact Henc|].
    unfold ViLBERTBase_forward. rewrite Hmasks. cbn. rewrite Henc. cbn.
    repeat split; reflexivity.
Qed.

End EncodedOutputs.

(** ** An encoder without co-attention *)

Section SeparateStreams.
Context {Slice : Type} `{!TensorOps Slice}.
Variable self : BertEncoder (Slice := Slice).
Variable mask2 : Mask.
Variables b oam : bool.
Variables txt0 img0 : list Slice.
Variables tm im : Mask.
Implicit Types (s : Locals (Slice := Slice)) (i : Z).

Hypothesis no_coattention : with_coattention self = false.
Hypothesis no_pairs : in_batch_pairs self = false.
Hypothesis no_fast_mode : FAST_MODE self = false.
Hypothesis frozen_t_small : fixed_t_layer self ≤ 1.
Hypothesis frozen_v_small : fixed_v_layer self ≤ 1.
Hypothesis no_gating :
  Forall (λ l, dynamic_attention l = false) (v_layer self).

Lemma run_text_stack_app ls1 ls2 m (h : list Slice) :
  run_text_stack (ls1 ++ ls2) m h = run_text_stack ls2 m (run_text_stack ls1 m h).
Proof. apply foldl_app. Qed.

Lemma run_visual_stack_app ls1 ls2 m t m2 (h : list Slice) :
  run_visual_stack (ls1 ++ ls2) m t m2 h
  = run_visual_stack ls2 m t m2 (run_visual_stack ls1 m t m2 h).
Proof. apply foldl_app. Qed.

(** Without gating a visual layer does not look at the text stream. *)
Lemma run_visual_stack_static ls m t t' m2 m2' (h : list Slice) :
  Forall (λ l, dynamic_attention l = false) ls →
  run_visual_stack ls m t m2 h = run_visual_stack ls m t' m2' h.
Proof.
  intros Hls. revert h. unfold run_visual_stack.
  induction Hls as [|l ls Hl _ IH]; intros h; [done|].
  cbn [foldl]. rewrite IH. unfold v_forward. now rewrite Hl.
Qed.

Lemma take_segment {X : Type} (a c : nat) (ls : list X) :
  (a ≤ c)%nat → take a ls ++ drop a (take c ls) = take c ls.
Proof.
  intros Hac. rewrite <- (take_drop a (take c ls)) at 2.
  now rewrite take_take, Nat.min_l.
Qed.

(** The two text loops of one schedule entry. *)
Lemma text_loops_extend t_end s :
  fixed_t_layer self ≤ t_end →
  (Z.to_nat (t_start s) ≤ Z.to_nat t_end)%nat →
  txt_embedding s
  = run_text_stack (take (Z.to_nat (t_start s)) (layer self))
      (txt_attention_mask s) txt0 →
  let s' := text_loop oam t_end (layer self) 0
              (frozen_text_loop self oam (layer self) 0 s) in
  txt_embedding s'
  = run_text_stack (take (Z.to_nat t_end) (layer self))
      (txt_attention_mask s) txt0 ∧
  beside_text s' = beside_text s.
Proof.
  intros Hassert Hle Htxt.
  set (s1 := frozen_text_loop self oam (layer self) 0 s).
  assert (H1 : txt_embedding s1
               = run_text_stack (take (Z.to_nat (t_start s1)) (layer self))
                   (txt_attention_mask s) txt0
               ∧ (Z.to_nat (t_start s1) ≤ Z.to_nat t_end)%nat
               ∧ beside_text s1 = beside_text s).
  { subst s1. destruct (decide (t_start s ≤ 0 < fixed_t_layer self)) as [Hin|Hout].
    - destruct (layer self) as [|l ls] eqn:Hl.
      + cbn. rewrite take_nil in *. done.
      + rewrite frozen_text_loop_fire by done. cbn.
        replace (Z.to_nat (t_start s)) with 0%nat in Htxt by lia.
        cbn in Htxt. rewrite Htxt.
        replace (fixed_t_layer self) with 1 by lia. cbn.
        split; [done|]. split; [lia|].
        unfold beside_text, fusion_calls. cbn.
        now rewrite fusion_calls_snoc.
    - rewrite frozen_text_loop_idle by lia. done. }
  destruct H1 as (Htxt1 & Hle1 & Hb1).
  assert (Hm1 : txt_attention_mask s1 = txt_attention_mask s).
  { unfold beside_text in Hb1. congruence. }
  intros s'. subst s'. rewrite text_loop_segment, !Z.sub_0_r.
  split.
  - rewrite run_layers_txt, Htxt1, Hm1, <- run_text_stack_app.
    now rewrite take_segment.
  - now rewrite run_layers_beside.
Qed.

(** The two visual loops of one schedule entry. *)
Lemma visual_loops_extend v_end s :
  fixed_v_layer self ≤ v_end →
  (Z.to_nat (v_start s) ≤ Z.to_nat v_end)%nat →
  image_embedding s
  = run_visual_stack (take (Z.to_nat (v_start s)) (v_layer self))
      (image_attention_mask s) txt0 mask2 img0 →
  let s' := visual_loop mask2 oam v_end (v_layer self) 0
              (frozen_visual_loop self mask2 oam (v_layer self) 0 s) in
  image_embedding s'
  = run_visual_stack (take (Z.to_nat v_end) (v_layer self))
      (image_attention_mask s) txt0 mask2 img0 ∧
  beside_image s' = beside_image s.
Proof.
  intros Hassert Hle Himg.
  set (s1 := frozen_visual_loop self mask2 oam (v_layer self) 0 s).
  assert (H1 : image_embedding s1
               = run_visual_stack (take (Z.to_nat (v_start s1)) (v_layer self))
                   (image_attention_mask s) txt0 mask2 img0
               ∧ (Z.to_nat (v_start s1) ≤ Z.to_nat v_end)%nat
               ∧ beside_image s1 = beside_image s).
  { subst s1. destruct (decide (v_start s ≤ 0 < fixed_v_layer self)) as [Hin|Hout].
    - pose proof no_gating as Hg.
      destruct (v_layer self) as [|l ls] eqn:Hl.
      + cbn. rewrite take_nil in *. done.
      + rewrite frozen_visual_loop_fire by done. cbn.
        replace (Z.to_nat (v_start s)) with 0%nat in Himg by lia.
        cbn in Himg. rewrite Himg.
        replace (fixed_v_layer self) with 1 by lia. cbn.
        split; [|split; [lia|]].
        * change (Z.to_nat 1) with 1%nat. cbn.
          unfold v_forward_no_grad, v_forward.
          now rewrite (Forall_inv Hg).
        * unfold beside_image, fusion_calls. cbn.
          now rewrite fusion_calls_snoc.
    - rewrite frozen_visual_loop_idle by lia. done. }
  destruct H1 as (Himg1 & Hle1 & Hb1).
  assert (Hm1 : image_attention_mask s1 = image_attention_mask s).
  { unfold beside_image in Hb1. congruence. }
  intros s'. subst s'. rewrite visual_loop_segment, !Z.sub_0_r.
  split.
  - rewrite run_v_layers_image, Himg1, Hm1.
    rewrite (run_visual_stack_static _ _ (txt_embedding s1) txt0 mask2 mask2).
    + rewrite <- run_visual_stack_app. now rewrite take_segment.
    + apply Forall_drop, Forall_take, no_gating.
  - now rewrite run_v_layers_beside.
Qed.


Lemma reshape_batches_off (B : nat) s : reshape_batches self B s = Ok s.
Proof.
  unfold reshape_batches.
  rewrite no_pairs, andb_false_r. cbn.
  now rewrite no_fast_mode, andb_false_r.
Qed.

Local Abbreviation separate := (separate_streams self mask2 txt0 img0 tm im).

Lemma separate_initial co : separate (initial txt0 img0 tm im co).
Proof. repeat split. Qed.

(** One schedule entry takes both streams to the depths of the entry. *)
Lemma schedule_entry_separate (B : nat) s v_end t_end :
  separate s →
  fixed_v_layer self ≤ v_end → fixed_t_layer self ≤ t_end →
  (Z.to_nat (v_start s) ≤ Z.to_nat v_end)%nat →
  (Z.to_nat (t_start s) ≤ Z.to_nat t_end)%nat →
  ∃ s', schedule_entry self mask2 b oam B s v_end t_end = Ok s' ∧
        separate s' ∧ v_start s' = v_end ∧ t_start s' = t_end.
Proof.
  intros (Htxt & Himg & Htm & Him & Hc & Hf) Hav Hat Hlv Hlt.
  unfold schedule_entry.
  rewrite !bool_decide_eq_true_2 by done. cbn [negb].
  rewrite <- Htm in Htxt.
  destruct (text_loops_extend t_end s Hat Hlt Htxt) as [Htxt2 Hb2].
  set (s2 := text_loop oam t_end (layer self) 0
               (frozen_text_loop self oam (layer self) 0 s)) in *.
  unfold beside_text in Hb2.
  assert (Himg2 : image_embedding s2
                  = run_visual_stack
                      (take (Z.to_nat (v_start s2)) (v_layer self))
                      (image_attention_mask s2) txt0 mask2 img0)
    by congruence.
  assert (Hlv2 : (Z.to_nat (v_start s2) ≤ Z.to_nat v_end)%nat) by congruence.
  destruct (visual_loops_extend v_end s2 Hav Hlv2 Himg2) as [Himg4 Hb4].
  set (s4 := visual_loop mask2 oam v_end (v_layer self) 0
               (frozen_visual_loop self mask2 oam (v_layer self) 0 s2)) in *.
  unfold beside_image in Hb4.
  rewrite reshape_batches_off. cbn. rewrite no_coattention.
  eexists. split; [reflexivity|].
  split; [|done]. unfold separate_streams, fusion_calls in *. cbn.
  repeat split; congruence.
Qed.

(** The bounds a schedule must meet on entry of the loop: the depths reached
    and the frozen boundaries are not above its first entry. *)
Local Abbreviation reachable schedule s :=
  (match schedule with
   | [] => True
   | p :: _ =>
     (Z.to_nat (v_start s) ≤ Z.to_nat p.1)%nat ∧
     (Z.to_nat (t_start s) ≤ Z.to_nat p.2)%nat ∧
     fixed_v_layer self ≤ p.1 ∧ fixed_t_layer self ≤ p.2
   end).

Lemma schedule_loop_separate (B : nat) schedule s :
  separate s → non_decreasing schedule = true → reachable schedule s →
  ∃ s', schedule_loop self mask2 b oam B schedule s = Ok s' ∧ separate s'.
Proof.
  revert s. induction schedule as [|[v t] schedule IH]; intros s Hs Hnd Hr.
  - now exists s.
  - destruct Hr as (Hlv & Hlt & Hav & Hat). cbn in Hlv, Hlt, Hav, Hat.
    destruct (schedule_entry_separate B s v t Hs Hav Hat Hlv Hlt)
      as (s1 & H1 & Hs1 & Hv1 & Ht1).
    cbn [schedule_loop]. rewrite H1. cbn.
    cbn [non_decreasing] in Hnd. apply andb_prop in Hnd as [Hhd Hnd].
    apply IH; [done..|].
    destruct schedule as [|[v' t'] schedule]; [done|].
    apply andb_prop in Hhd as [Hv Ht].
    apply bool_decide_eq_true_1 in Hv, Ht. cbn in Hv, Ht |- *.
    rewrite Hv1, Ht1. lia.
Qed.

Lemma no_fusion_calls (cs : list Call) :
  filter (λ c, is_fusion_call c = true) cs = [] →
  Forall (λ c, is_fusion_call c = false) cs.
Proof.
  induction cs as [|c cs IH]; [constructor|].
  destruct (is_fusion_call c) eqn:Hc.
  - now rewrite filter_cons_True by done.
  - rewrite filter_cons_False by (now rewrite Hc). intros Hcs.
    constructor; [done | now apply IH].
Qed.

(** The layers after the schedule complete both stacks. *)
Lemma run_tail_separate s :
  separate s →
  let s' := run_tail self mask2 oam s in
  txt_embedding s' = run_text_stack (layer self) tm txt0 ∧
  image_embedding s' = run_visual_stack (v_layer self) im txt0 mask2 img0 ∧
  all_attention_mask_c s' = [] ∧ fusion_calls s' = [].
Proof.
  intros (Htxt & Himg & Htm & Him & Hc & Hf) s'. subst s'. unfold run_tail.
  rewrite tail_text_loop_segment, !Z.sub_0_r.
  set (s1 := tail_visual_loop mask2 oam (v_layer self) 0 s).
  assert (H1 : image_embedding s1
               = run_visual_stack (v_layer self) im txt0 mask2 img0
               ∧ beside_image s1 = beside_image s).
  { subst s1. rewrite tail_visual_loop_segment, !Z.sub_0_r. split.
    - rewrite run_v_layers_image, Himg, Him.
      rewrite (run_visual_stack_static _ _ (txt_embedding s) txt0 mask2 mask2)
        by apply Forall_drop, no_gating.
      now rewrite <- run_visual_stack_app, take_drop.
    - apply run_v_layers_beside. }
  destruct H1 as [Himg1 Hb1]. unfold beside_image in Hb1.
  pose proof (run_layers_beside oam
                (drop (Z.to_nat (t_start s1)) (layer self))
                (Z.max 0 (t_start s1)) s1) as Hb2.
  unfold beside_text in Hb2.
  repeat split; try congruence.
  rewrite run_layers_txt.
  replace (txt_attention_mask s1) with tm by congruence.
  replace (txt_embedding s1) with (txt_embedding s) by congruence.
  replace (t_start s1) with (t_start s) by congruence.
  now rewrite Htxt, <- run_text_stack_app, take_drop.
Qed.


(** C7, as the code has it.  Without co-attention and without batch
    reshaping, with frozen boundaries of at most one layer, visual layers
    that are not gated by the text, and a schedule that never decreases and
    starts at or above the frozen boundaries: the run ends with the text
    stream of the whole text stack run alone on the text input and the
    visual stream of the whole visual stack run alone on the visual input,
    no fusion block is called, and, when only the final layer is asked for,
    these two streams are the single elements of the two lists returned. *)
Theorem without_coattention_streams_run_separately (co : CoMask) :
  non_decreasing (zip (v_biattention_id self) (t_biattention_id self)) = true →
  (∀ p, head (zip (v_biattention_id self) (t_biattention_id self)) = Some p →
        fixed_v_layer self ≤ p.1 ∧ fixed_t_layer self ≤ p.2) →
  ∃ s, BertEncoder_run self mask2 b oam txt0 img0 tm im co = Ok s ∧
    txt_embedding s = run_text_stack (layer self) tm txt0 ∧
    image_embedding s = run_visual_stack (v_layer self) im txt0 mask2 img0 ∧
    Forall (λ c, is_fusion_call c = false) (calls s) ∧
    all_attention_mask_c s = [] ∧
    (b = false →
     BertEncoder_forward self mask2 b oam txt0 img0 tm im co
     = Ok ([run_text_stack (layer self) tm txt0],
           [run_visual_stack (v_layer self) im txt0 mask2 img0],
           (all_attention_mask_t s, all_attnetion_mask_v s, []))).
Proof.
  intros Hnd Hfirst.
  destruct (schedule_loop_separate (length txt0)
              (zip (v_biattention_id self) (t_biattention_id self))
              (initial txt0 img0 tm im co) (separate_initial co) Hnd)
    as (s1 & H1 & Hs1).
  { destruct (zip _ _) as [|p schedule]; [done|].
    destruct (Hfirst p eq_refl). cbn. repeat split; (lia || done). }
  destruct (run_tail_separate s1 Hs1) as (Htxt & Himg & Hc & Hf).
  set (s2 := run_tail self mask2 oam s1) in *.
  assert (Hrun : BertEncoder_run self mask2 b oam txt0 img0 tm im co
                 = Ok (finish b s2)).
  { unfold BertEncoder_run. now rewrite H1. }
  exists (finish b s2). split; [exact Hrun|]. cbn.
  repeat split; try done.
  - now apply no_fusion_calls.
  - intros Hb. unfold BertEncoder_forward. rewrite Hrun. cbn.
    unfold returned. cbn. rewrite Hb.
    pose proof (schedule_loop_encoded_unchanged _ _ _ _ _ _ _ _ Hb H1) as Hl.
    pose proof (run_tail_encoded self mask2 oam s1) as Ht.
    fold s2 in Ht. cbn in Hl. rewrite Hl in Ht.
    injection Ht as -> ->. now rewrite Htxt, Himg, Hc.
Qed.

End SeparateStreams.

Lemma without_coattention_streams_run_separately_witness :
  (with_coattention (Inputs.encoder_of false
                       (Inputs.one_fusion false false false "sum")) = false ∧
   non_decreasing [(1, 2)] = true) ∧
  Inputs.view (Runs.run false (Inputs.one_fusion false false false "sum") false)
  = Ok ([[0; 1; 2]], [[100; 101]], [[[0; 1; 2]]], [[[100; 101]]],
        [CallLayer with_grad 0; CallLayer with_grad 1; CallVLayer with_grad 0;
         CallVLayer with_grad 1; CallLayer with_grad 2]) ∧
  ∃ s, Runs.run false (Inputs.one_fusion false false false "sum") false = Ok s ∧
       txt_embedding s
       = run_text_stack
           (layer (Inputs.encoder_of false
                     (Inputs.one_fusion false false false "sum")))
           [[0]] [[]] ∧
       Forall (λ c, is_fusion_call c = false) (calls s).
Proof.
  split; [done|]. split; [vm_compute; reflexivity|].
  destruct (without_coattention_streams_run_separately
              (Inputs.encoder_of false
                 (Inputs.one_fusion false false false "sum"))
              [[1]] false false [[]] [[]] [[0]] [[0]])
    with (co := [[[0]]]) as (s & Hs & Ht & _ & Hc & _).
  - reflexivity.
  - reflexivity.
  - reflexivity.
  - now vm_compute.
  - now vm_compute.
  - vm_compute. repeat constructor.
  - reflexivity.
  - intros p [= <-]. vm_compute. split; discriminate.
  - exists s. done.
Defined.

(** C7, as stated, fails.  With [output_all_encoded_layers] set, as it is by
    default in [BertEncoder.forward], the last text sequence returned stops
    at the depth of the last schedule entry: layers 0 and 1, not the three
    layers of the stack.  And with gated visual layers the visual stream is
    not that of the visual stack run on the inputs alone. *)
Lemma without_coattention_outputs_differ_from_separate_stacks :
  with_coattention (Inputs.encoder_of false
                      (Inputs.one_fusion false false false "sum")) = false ∧
  (all_encoder_layers_t
     <$> Runs.run false (Inputs.one_fusion false false false "sum") true)
  = Ok [[[0; 1]]] ∧
  run_text_stack
    (layer (Inputs.encoder_of false
              (Inputs.one_fusion false false false "sum"))) [[0]] [[]]
  = [[0; 1; 2]] ∧
  (all_encoder_layers_v
     <$> Runs.run true (Inputs.one_fusion false false false "sum") false)
  = Ok [[[2; 100; 2; 101]]] ∧
  run_visual_stack
    (v_layer (Inputs.encoder_of true
                (Inputs.one_fusion false false false "sum")))
    [[0]] [[]] [[1]] [[]]
  = [[0; 100; 0; 101]].
Proof. repeat split; vm_compute; reflexivity. Qed.

Lemma encoded_layers_end_at_last_schedule_entry_witness :
  build_masks Runs.fusion_base [[7]] [[[9]]] None None None
  = Ok ([[0]], [[1]], [[0]], [[[0]]]) ∧
  (∃ out, Runs.forward_with_co None true = Ok out ∧
          sequence_output_t out = [[7; 0; 1; 200]] ∧
          encoded_layers_t_output out = Some [[[7; 0; 1; 200]]]) ∧
  (∃ out, Runs.forward_with_co None false = Ok out ∧
          sequence_output_t out = [[7; 0; 1; 200; 2]] ∧
          encoded_layers_t_output out = None).
Proof.
  split; [reflexivity|].
  destruct (encoded_layers_end_at_last_schedule_entry Runs.fusion_base
              [[7]] [[[9]]] [[[0]]] None None None None None false
              [[0]] [[1]] [[0]] [[[0]]] [[7]] [[9]] [(1, 2)]
              eq_refl eq_refl eq_refl eq_refl) as [Hall Hlast].
  split.
  - assert (Hs : ∃ s,
        schedule_loop (encoder Runs.fusion_base) [[1]] true false 1
          [(1, 2)] (initial [[7]] [[9]] [[0]] [[0]] [[[0]]]) = Ok s
        ∧ txt_embedding s = [[7; 0; 1; 200]])
      by (eexists; split; vm_compute; reflexivity).
    destruct Hs as (s & Hs & Ht).
    destruct (Hall s Hs) as (out & lt & lv & Hout & Hseq & _); [done|].
    exists out. split; [exact Hout|]. split; [congruence|].
    clear - Hout. vm_compute in Hout. now injection Hout as <-.
  - assert (Hs : ∃ s,
        schedule_loop (encoder Runs.fusion_base) [[1]] false false 1
          [(1, 2)] (initial [[7]] [[9]] [[0]] [[0]] [[[0]]]) = Ok s
        ∧ txt_embedding (run_tail (encoder Runs.fusion_base) [[1]] false s)
          = [[7; 0; 1; 200; 2]])
      by (eexists; split; vm_compute; reflexivity).
    destruct Hs as (s & Hs & Ht).
    destruct (Hlast s Hs) as (out & att & _ & Hout & Hseq & _ & Hnone & _).
    exists out. split; [exact Hout|]. split; [congruence | exact Hnone].
Defined.

(** ** The frozen range, in general *)

Section Frozen.
Context {Slice : Type} `{!TensorOps Slice}.
Variable self : BertEncoder (Slice := Slice).
Variable oam : bool.

(** Whatever the stack and the boundary: started inside the frozen range,
    the first text loop runs the layer of index [t_start] without gradient,
    and no other layer, although [t_start] then is the boundary. *)
Lemma frozen_text_loop_runs_one_layer (s : Locals) (l : BertLayer) :
  0 ≤ t_start s < fixed_t_layer self →
  layer self !! Z.to_nat (t_start s) = Some l →
  frozen_text_loop self oam (layer self) 0 s
  = set_t_start
      (assign_txt oam s
         (forward_no_grad l (txt_embedding s) (txt_attention_mask s))
         (CallLayer no_grad (t_start s)))
      (fixed_t_layer self).
Proof.
  intros Hin Hl. rewrite frozen_text_loop_skip, Z.sub_0_r.
  replace (Z.max 0 (t_start s)) with (t_start s) by lia.
  rewrite (drop_S _ _ _ Hl). apply frozen_text_loop_fire. lia.
Qed.

End Frozen.

(** ** The bias in floating point *)

(** On the two mask values the floating-point expression is exact: the bias
    of an attended position compares equal to zero (it is the negative
    zero), the bias of a masked position is -10000. *)
Lemma additive_bias_float_exact :
  PrimFloat.eqb (additive_bias_float 1%float) 0%float = true ∧
  additive_bias_float 0%float = (-10000)%float.
Proof. split; vm_compute; reflexivity. Qed.

(** * Further properties of the code *)

(** ** When the two reshaping branches raise *)

Section ExpandFacts.
Context {A : Type}.
Implicit Types (x : list A) (n : nat).

Lemma expand_axis_is_ok n x :
  is_ok (Tensor.expand_axis n x) = true ↔ length x = n ∨ length x = 1%nat.
Proof.
  unfold Tensor.expand_axis. case_decide as Hn.
  - cbn. tauto.
  - destruct x as [|a [|a' x]]; cbn in *; split; try done; try tauto;
      intros [H|H]; (done || lia).
Qed.

Lemma expand_axis_raises n x e :
  Tensor.expand_axis n x = Raise e → e = RuntimeError.
Proof.
  unfold Tensor.expand_axis. case_decide; [done|].
  destruct x as [|a [|a' x]]; congruence.
Qed.

Lemma expand_axis_length n x y :
  Tensor.expand_axis n x = Ok y → length y = n.
Proof.
  unfold Tensor.expand_axis. case_decide as Hn; [congruence|].
  destruct x as [|a [|a' x]]; try done. intros [= <-].
  apply length_replicate.
Qed.

End ExpandFacts.

Section ExpandViewFacts.
Context {A : Type}.
Implicit Types (x : list A) (n : nat).

Lemma expand_view0_is_ok n x :
  is_ok (expand_view0 n x) = true ↔ length x = n ∨ length x = 1%nat.
Proof.
  rewrite <- expand_axis_is_ok.
  unfold expand_view0, Tensor.expand2, Tensor.unsqueeze0. cbn.
  destruct (Tensor.expand_axis n x) as [y|]; cbn; [|done].
  now rewrite expand_axis_singleton.
Qed.

Lemma expand_view1_is_ok n x :
  is_ok (expand_view1 n x) = true ↔ length x = n ∨ length x = 1%nat.
Proof.
  pose proof (expand_axis_is_ok n (replicate n <$> x)) as Hrows.
  rewrite length_fmap in Hrows. rewrite <- Hrows.
  unfold expand_view1, Tensor.expand2.
  rewrite mapM_expand_axis_singletons.
  now destruct (Tensor.expand_axis n (replicate n <$> x)).
Qed.

Lemma expand_view0_raises n x e :
  expand_view0 n x = Raise e → e = RuntimeError.
Proof.
  unfold expand_view0, Tensor.expand2, Tensor.unsqueeze0. cbn.
  destruct (Tensor.expand_axis n x) as [y|] eqn:Hx; cbn.
  - now rewrite expand_axis_singleton.
  - intros [= <-]. now apply expand_axis_raises in Hx.
Qed.

Lemma expand_view1_raises n x e :
  expand_view1 n x = Raise e → e = RuntimeError.
Proof.
  unfold expand_view1, Tensor.expand2.
  rewrite mapM_expand_axis_singletons.
  destruct (Tensor.expand_axis n (replicate n <$> x)) as [y|] eqn:Hx; cbn;
    [done|].
  intros [= <-]. now apply expand_axis_raises in Hx.
Qed.

End ExpandViewFacts.

Section ReshapeErrors.
Context {Slice : Type} `{!TensorOps Slice}.
Implicit Types (self : BertEncoder (Slice := Slice)) (s : Locals (Slice := Slice)).

(** X1.  The pairwise expansion to [B * B] succeeds exactly when each of the
    five batches (visual embedding and mask, text embedding and mask,
    co-attention mask) has size [B] or size 1; otherwise it raises, and what
    it raises is a RuntimeError. *)
Theorem pairwise_expansion_succeeds_iff (B : nat) s :
  (is_ok (pairwise_expansion B s) = true ↔
   (length (image_embedding s) = B ∨ length (image_embedding s) = 1%nat) ∧
   (length (image_attention_mask s) = B
    ∨ length (image_attention_mask s) = 1%nat) ∧
   (length (txt_embedding s) = B ∨ length (txt_embedding s) = 1%nat) ∧
   (length (txt_attention_mask s) = B
    ∨ length (txt_attention_mask s) = 1%nat) ∧
   (length (co_attention_mask s) = B ∨ length (co_attention_mask s) = 1%nat)) ∧
  (∀ e, pairwise_expansion B s = Raise e → e = RuntimeError).
Proof.
  pose proof (expand_view0_is_ok B (image_embedding s)) as H1.
  pose proof (expand_view0_is_ok B (image_attention_mask s)) as H2.
  pose proof (expand_view1_is_ok B (txt_embedding s)) as H3.
  pose proof (expand_view1_is_ok B (txt_attention_mask s)) as H4.
  pose proof (expand_view1_is_ok B (co_attention_mask s)) as H5.
  pose proof (expand_view0_raises B (image_embedding s)) as E1.
  pose proof (expand_view0_raises B (image_attention_mask s)) as E2.
  pose proof (expand_view1_raises B (txt_embedding s)) as E3.
  pose proof (expand_view1_raises B (txt_attention_mask s)) as E4.
  pose proof (expand_view1_raises B (co_attention_mask s)) as E5.
  unfold pairwise_expansion.
  destruct (expand_view0 B (image_embedding s)); cbn in *;
    [|split; [intuition congruence | intros err [= <-]; now apply E1]].
  destruct (expand_view0 B (image_attention_mask s)); cbn in *;
    [|split; [intuition congruence | intros err [= <-]; now apply E2]].
  destruct (expand_view1 B (txt_embedding s)); cbn in *;
    [|split; [intuition congruence | intros err [= <-]; now apply E3]].
  destruct (expand_view1 B (txt_attention_mask s)); cbn in *;
    [|split; [intuition congruence | intros err [= <-]; now apply E4]].
  destruct (expand_view1 B (co_attention_mask s)); cbn in *;
    [|split; [intuition congruence | intros err [= <-]; now apply E5]].
  split; [intuition congruence | done].
Qed.

(** X2.  The fast-mode broadcast succeeds exactly when the text embedding and
    the text mask have the batch size of the visual embedding or batch size
    1; it then gives both that batch size and leaves the visual stream and
    the other masks as they are; otherwise it raises a RuntimeError. *)
Theorem fast_broadcast_succeeds_iff s :
  (is_ok (fast_broadcast s) = true ↔
   (length (txt_embedding s) = length (image_embedding s)
    ∨ length (txt_embedding s) = 1%nat) ∧
   (length (txt_attention_mask s) = length (image_embedding s)
    ∨ length (txt_attention_mask s) = 1%nat)) ∧
  (∀ s', fast_broadcast s = Ok s' →
     length (txt_embedding s') = length (image_embedding s) ∧
     length (txt_attention_mask s') = length (image_embedding s) ∧
     image_embedding s' = image_embedding s ∧
     image_attention_mask s' = image_attention_mask s ∧
     co_attention_mask s' = co_attention_mask s) ∧
  (∀ e, fast_broadcast s = Raise e → e = RuntimeError).
Proof.
  pose proof (expand_axis_is_ok (length (image_embedding s)) (txt_embedding s))
    as H1.
  pose proof (expand_axis_is_ok (length (image_embedding s))
                (txt_attention_mask s)) as H2.
  pose proof (expand_axis_raises (length (image_embedding s))
                (txt_embedding s)) as E1.
  pose proof (expand_axis_raises (length (image_embedding s))
                (txt_attention_mask s)) as E2.
  pose proof (expand_axis_length (length (image_embedding s))
                (txt_embedding s)) as L1.
  pose proof (expand_axis_length (length (image_embedding s))
                (txt_attention_mask s)) as L2.
  unfold fast_broadcast.
  destruct (Tensor.expand_axis _ (txt_embedding s)) as [t|]; cbn in *;
    [|split; [intuition congruence
             | split; [done | intros err [= <-]; now apply E1]]].
  destruct (Tensor.expand_axis _ (txt_attention_mask s)) as [m|]; cbn in *;
    [|split; [intuition congruence
             | split; [done | intros err [= <-]; now apply E2]]].
  split; [intuition congruence|]. split; [|done].
  intros s' [= <-]. cbn. repeat split; auto.
Qed.

End ReshapeErrors.

(** ** What [BertEncoder.forward] can raise *)

Section EncoderErrors.
Context {Slice : Type} `{!TensorOps Slice}.
Variable self : BertEncoder (Slice := Slice).
Variable mask2 : Mask.
Variables b oam : bool.
Implicit Types (s : Locals (Slice := Slice)) (i : Z).

Lemma reshape_batches_raises (B : nat) s e :
  reshape_batches self B s = Raise e → e = RuntimeError.
Proof.
  unfold reshape_batches.
  destruct (bool_decide (count s = 0) && in_batch_pairs self).
  - destruct (pairwise_expansion B s) as [s1|e1] eqn:H1; cbn.
    + destruct (bool_decide (count s1 = 0) && FAST_MODE self); [|done].
      apply fast_broadcast_succeeds_iff.
    + intros [= <-]. now apply (pairwise_expansion_succeeds_iff B s).
  - cbn. destruct (bool_decide (count s = 0) && FAST_MODE self); [|done].
    apply fast_broadcast_succeeds_iff.
Qed.

Lemma schedule_entry_raises (B : nat) s v t e :
  schedule_entry self mask2 b oam B s v t = Raise e →
  e = AssertionError ∨ e = RuntimeError.
Proof.
  unfold schedule_entry.
  destruct (negb (bool_decide (fixed_t_layer self ≤ t))); [intros [= <-]; auto|].
  destruct (negb (bool_decide (fixed_v_layer self ≤ v))); [intros [= <-]; auto|].
  match goal with
  | |- context [reshape_batches self B ?s1] =>
    destruct (reshape_batches self B s1) as [s2|e2] eqn:H2; cbn; [done|]
  end.
  intros [= <-]. right. now apply reshape_batches_raises in H2.
Qed.

Lemma schedule_loop_raises (B : nat) schedule s e :
  schedule_loop self mask2 b oam B schedule s = Raise e →
  e = AssertionError ∨ e = RuntimeError.
Proof.
  revert s. induction schedule as [|[v t] schedule IH]; intros s; cbn; [done|].
  destruct (schedule_entry self mask2 b oam B s v t) as [s1|e1] eqn:H1; cbn.
  - apply IH.
  - intros [= <-]. now apply schedule_entry_raises in H1.
Qed.

(** X3.  Whatever the configuration and the inputs, an exception of
    [BertEncoder.forward] is an AssertionError (a frozen boundary above a
    schedule depth) or a RuntimeError (a batch that cannot be expanded). *)
Theorem encoder_raises_assertion_or_runtime_error_only
    (txt0 img0 : list Slice) (tm im : Mask) (co : CoMask) (e : exn) :
  BertEncoder_run self mask2 b oam txt0 img0 tm im co = Raise e →
  e = AssertionError ∨ e = RuntimeError.
Proof.
  unfold BertEncoder_run.
  destruct (schedule_loop _ _ _ _ _ _ _) as [s|e1] eqn:H1; cbn; [done|].
  intros [= <-]. now apply schedule_loop_raises in H1.
Qed.

(** With both reshaping flags off an entry raises exactly when one of its two
    assertions fails. *)
Lemma schedule_entry_flags_off (B : nat) s v t :
  in_batch_pairs self = false → FAST_MODE self = false →
  (fixed_v_layer self ≤ v ∧ fixed_t_layer self ≤ t →
   is_ok (schedule_entry self mask2 b oam B s v t) = true) ∧
  (¬ (fixed_v_layer self ≤ v ∧ fixed_t_layer self ≤ t) →
   schedule_entry self mask2 b oam B s v t = Raise AssertionError).
Proof.
  intros Hp Hf. unfold schedule_entry. split.
  - intros [Hv Ht]. rewrite !bool_decide_eq_true_2 by done. cbn [negb].
    rewrite reshape_batches_off by done. done.
  - intros Hn. destruct (decide (fixed_t_layer self ≤ t)) as [Ht|Ht].
    + rewrite (bool_decide_eq_true_2 _ Ht). cbn [negb].
      now rewrite bool_decide_eq_false_2 by tauto.
    + now rewrite bool_decide_eq_false_2 by done.
Qed.

(** X4.  With [in_batch_pairs] and [fast_mode] off, [BertEncoder.forward]
    returns exactly when no frozen boundary is above the depth of any entry
    of the zipped schedule, and raises an AssertionError otherwise. *)
Theorem encoder_returns_iff_frozen_boundaries_fit
    (txt0 img0 : list Slice) (tm im : Mask) (co : CoMask) :
  in_batch_pairs self = false → FAST_MODE self = false →
  (is_ok (BertEncoder_run self mask2 b oam txt0 img0 tm im co) = true ↔
   Forall (λ p, fixed_v_layer self ≤ p.1 ∧ fixed_t_layer self ≤ p.2)
     (zip (v_biattention_id self) (t_biattention_id self))) ∧
  (∀ e, BertEncoder_run self mask2 b oam txt0 img0 tm im co = Raise e →
        e = AssertionError).
Proof.
  intros Hp Hf. unfold BertEncoder_run.
  generalize (initial txt0 img0 tm im co).
  generalize (length txt0).
  induction (zip (v_biattention_id self) (t_biattention_id self))
    as [|[v t] schedule IH]; intros B s; cbn.
  - split; [split; [constructor | done] | done].
  - destruct (schedule_entry_flags_off B s v t Hp Hf) as [Hok Hraise].
    destruct (decide (fixed_v_layer self ≤ v ∧ fixed_t_layer self ≤ t))
      as [Hfit|Hfit].
    + specialize (Hok Hfit).
      destruct (schedule_entry self mask2 b oam B s v t) as [s1|]; [|done].
      cbn. destruct (IH B s1) as [IH1 IH2]. split; [|exact IH2].
      rewrite IH1. split; [now constructor | now inversion 1].
    + rewrite (Hraise Hfit). cbn. split; [|now intros e [= <-]].
      split; [done | now inversion 1].
Qed.

End EncoderErrors.

(** ** Diagnostics and fusion calls *)

Section Diagnostics.
Context {Slice : Type} `{!TensorOps Slice}.
Variable self : BertEncoder (Slice := Slice).
Variable mask2 : Mask.
Variable b : bool.
Implicit Types (s : Locals (Slice := Slice)) (i : Z).

Local Abbreviation diagnostics s :=
  (all_attention_mask_t s, all_attnetion_mask_v s, all_attention_mask_c s).

Lemma frozen_text_loop_quiet ls i s :
  diagnostics (frozen_text_loop self false ls i s) = diagnostics s.
Proof.
  revert i s. induction ls as [|l ls IH]; intros i s; cbn; [done|].
  rewrite IH. now case_bool_decide.
Qed.

Lemma text_loop_quiet t_end ls i s :
  diagnostics (text_loop false t_end ls i s) = diagnostics s.
Proof.
  revert i s. induction ls as [|l ls IH]; intros i s; cbn; [done|].
  rewrite IH. now case_bool_decide.
Qed.

Lemma frozen_visual_loop_quiet ls i s :
  diagnostics (frozen_visual_loop self mask2 false ls i s) = diagnostics s.
Proof.
  revert i s. induction ls as [|l ls IH]; intros i s; cbn; [done|].
  rewrite IH. now case_bool_decide.
Qed.

Lemma visual_loop_quiet v_end ls i s :
  diagnostics (visual_loop mask2 false v_end ls i s) = diagnostics s.
Proof.
  revert i s. induction ls as [|l ls IH]; intros i s; cbn; [done|].
  rewrite IH. now case_bool_decide.
Qed.

Lemma fusion_loop_quiet ls i s :
  diagnostics (fusion_loop false ls i s) = diagnostics s.
Proof.
  revert i s. induction ls as [|l ls IH]; intros i s; cbn; [done|].
  rewrite IH. now case_bool_decide.
Qed.

Lemma tail_visual_loop_quiet ls i s :
  diagnostics (tail_visual_loop mask2 false ls i s) = diagnostics s.
Proof.
  revert i s. induction ls as [|l ls IH]; intros i s; cbn; [done|].
  rewrite IH. now case_bool_decide.
Qed.

Lemma tail_text_loop_quiet ls i s :
  diagnostics (tail_text_loop false ls i s) = diagnostics s.
Proof.
  revert i s. induction ls as [|l ls IH]; intros i s; cbn; [done|].
  rewrite IH. now case_bool_decide.
Qed.

Lemma reshape_batches_quiet (B : nat) s s' :
  reshape_batches self B s = Ok s' → diagnostics s' = diagnostics s.
Proof.
  assert (Hp : ∀ s1 s2, pairwise_expansion B s1 = Ok s2 →
                        diagnostics s2 = diagnostics s1).
  { intros s1 s2. unfold pairwise_expansion.
    destruct (expand_view0 B (image_embedding s1)); [|done].
    destruct (expand_view0 B (image_attention_mask s1)); [|done].
    destruct (expand_view1 B (txt_embedding s1)); [|done].
    destruct (expand_view1 B (txt_attention_mask s1)); [|done].
    destruct (expand_view1 B (co_attention_mask s1)); [|done].
    cbn. now intros [= <-]. }
  assert (Hf : ∀ s1 s2, fast_broadcast s1 = Ok s2 →
                        diagnostics s2 = diagnostics s1).
  { intros s1 s2. unfold fast_broadcast.
    destruct (Tensor.expand_axis _ (txt_embedding s1)); [|done].
    destruct (Tensor.expand_axis _ (txt_attention_mask s1)); [|done].
    cbn. now intros [= <-]. }
  unfold reshape_batches. intros Hs'.
  destruct (bool_decide (count s = 0) && in_batch_pairs self).
  - destruct (pairwise_expansion B s) as [s1|] eqn:H1; [|done]. cbn in Hs'.
    rewrite <- (Hp _ _ H1).
    destruct (bool_decide (count s1 = 0) && FAST_MODE self).
    + now apply Hf.
    + now injection Hs' as <-.
  - cbn in Hs'.
    destruct (bool_decide (count s = 0) && FAST_MODE self).
    + now apply Hf.
    + now injection Hs' as <-.
Qed.

Lemma schedule_entry_quiet (B : nat) s s' v t :
  schedule_entry self mask2 b false B s v t = Ok s' →
  diagnostics s' = diagnostics s.
Proof.
  unfold schedule_entry. intros Hs'.
  destruct (negb (bool_decide (fixed_t_layer self ≤ t))); [done|].
  destruct (negb (bool_decide (fixed_v_layer self ≤ v))); [done|].
  match type of Hs' with
  | context [reshape_batches self B ?s1] =>
    destruct (reshape_batches self B s1) as [s2|] eqn:H2; [|done];
    assert (H1 : diagnostics s1 = diagnostics s)
  end.
  { now rewrite visual_loop_quiet, frozen_visual_loop_quiet, text_loop_quiet,
      frozen_text_loop_quiet. }
  apply reshape_batches_quiet in H2. cbn in Hs'. injection Hs' as <-. cbn.
  destruct (with_coattention self).
  - pose proof (fusion_loop_quiet (c_layer self) 0 s2). congruence.
  - congruence.
Qed.

Lemma schedule_loop_quiet (B : nat) schedule s s' :
  schedule_loop self mask2 b false B schedule s = Ok s' →
  diagnostics s' = diagnostics s.
Proof.
  revert s. induction schedule as [|[v t] schedule IH]; intros s Hs'; cbn in Hs'.
  - now injection Hs' as <-.
  - destruct (schedule_entry self mask2 b false B s v t) as [s1|] eqn:H1;
      [|done].
    cbn in Hs'. apply schedule_entry_quiet in H1. apply IH in Hs'. congruence.
Qed.

(** X5.  When attention diagnostics are not asked for, a forward pass that
    returns leaves the three diagnostics lists empty, whatever the layers
    put in their own diagnostics. *)
Theorem no_diagnostics_unless_asked
    (txt0 img0 : list Slice) (tm im : Mask) (co : CoMask) (s : Locals) :
  BertEncoder_run self mask2 b false txt0 img0 tm im co = Ok s →
  all_attention_mask_t s = [] ∧ all_attnetion_mask_v s = [] ∧
  all_attention_mask_c s = [].
Proof.
  unfold BertEncoder_run. intros Hs.
  destruct (schedule_loop _ _ _ _ _ _ _) as [s1|] eqn:H1; [|done].
  cbn in Hs. injection Hs as <-.
  apply schedule_loop_quiet in H1. cbn in H1.
  pose proof (tail_visual_loop_quiet (v_layer self) 0 s1) as H2.
  pose proof (tail_text_loop_quiet (layer self) 0
                (tail_visual_loop mask2 false (v_layer self) 0 s1)) as H3.
  unfold run_tail. cbn. repeat split; congruence.
Qed.

End Diagnostics.

Section FusionCalls.
Context {Slice : Type} `{!TensorOps Slice}.
Variable self : BertEncoder (Slice := Slice).
Variable mask2 : Mask.
Variables b oam : bool.
Implicit Types (s : Locals (Slice := Slice)) (i : Z).

(** How far the schedule has come, and the fusion blocks called so far. *)
Local Abbreviation progress s := (count s, fusion_calls s).

Lemma frozen_text_loop_progress ls i s :
  progress (frozen_text_loop self oam ls i s) = progress s.
Proof.
  revert i s. induction ls as [|l ls IH]; intros i s; cbn; [done|].
  rewrite IH. case_bool_decide; [|done].
  unfold fusion_calls. cbn. now rewrite fusion_calls_snoc.
Qed.

Lemma frozen_visual_loop_progress ls i s :
  progress (frozen_visual_loop self mask2 oam ls i s) = progress s.
Proof.
  revert i s. induction ls as [|l ls IH]; intros i s; cbn; [done|].
  rewrite IH. case_bool_decide; [|done].
  unfold fusion_calls. cbn. now rewrite fusion_calls_snoc.
Qed.

Lemma run_layers_progress ls i s :
  progress (run_layers oam ls i s) = progress s.
Proof.
  pose proof (run_layers_beside oam ls i s) as Hb. unfold beside_text in Hb.
  congruence.
Qed.

Lemma run_v_layers_progress ls i s :
  progress (run_v_layers mask2 oam ls i s) = progress s.
Proof.
  pose proof (run_v_layers_beside mask2 oam ls i s) as Hb.
  unfold beside_image in Hb. congruence.
Qed.

Lemma reshape_batches_progress (B : nat) s s' :
  reshape_batches self B s = Ok s' → progress s' = progress s.
Proof.
  assert (Hp : ∀ s1 s2, pairwise_expansion B s1 = Ok s2 →
                        progress s2 = progress s1).
  { intros s1 s2. unfold pairwise_expansion.
    destruct (expand_view0 B (image_embedding s1)); [|done].
    destruct (expand_view0 B (image_attention_mask s1)); [|done].
    destruct (expand_view1 B (txt_embedding s1)); [|done].
    destruct (expand_view1 B (txt_attention_mask s1)); [|done].
    destruct (expand_view1 B (co_attention_mask s1)); [|done].
    cbn. now intros [= <-]. }
  assert (Hf : ∀ s1 s2, fast_broadcast s1 = Ok s2 →
                        progress s2 = progress s1).
  { intros s1 s2. unfold fast_broadcast.
    destruct (Tensor.expand_axis _ (txt_embedding s1)); [|done].
    destruct (Tensor.expand_axis _ (txt_attention_mask s1)); [|done].
    cbn. now intros [= <-]. }
  unfold reshape_batches. intros Hs'.
  destruct (bool_decide (count s = 0) && in_batch_pairs self).
  - destruct (pairwise_expansion B s) as [s1|] eqn:H1; [|done]. cbn in Hs'.
    rewrite <- (Hp _ _ H1).
    destruct (bool_decide (count s1 = 0) && FAST_MODE self).
    + now apply Hf.
    + now injection Hs' as <-.
  - cbn in Hs'.
    destruct (bool_decide (count s = 0) && FAST_MODE self).
    + now apply Hf.
    + now injection Hs' as <-.
Qed.

(** The loop over the fusion blocks calls the block of index [count], if the
    stack has one, and no other. *)
Lemma fusion_loop_progress ls i s :
  progress (fusion_loop oam ls i s)
  = (count s,
     fusion_calls s ++
       if bool_decide (i ≤ count s < i + Z.of_nat (length ls))
       then [CallCLayer (count s)] else []).
Proof.
  revert i s. induction ls as [|l ls IH]; intros i s.
  - cbn. rewrite bool_decide_eq_false_2 by lia. now rewrite app_nil_r.
  - cbn [fusion_loop]. rewrite IH. case_bool_decide as Hc.
    + cbn [count assign_both]. unfold fusion_calls at 1. cbn [calls assign_both].
      rewrite filter_app, filter_cons_True, filter_nil by done.
      rewrite (bool_decide_eq_false_2 (i + 1 ≤ _ < _)) by lia.
      rewrite (bool_decide_eq_true_2 (i ≤ _ < _)) by (cbn; lia).
      rewrite app_nil_r. now subst i.
    + f_equal. f_equal.
      rewrite (bool_decide_ext (i + 1 ≤ count s < i + 1 + Z.of_nat (length ls))
                 (i ≤ count s < i + Z.of_nat (length (l :: ls))));
        [done | cbn [length]; lia].
Qed.

Lemma schedule_entry_progress (B : nat) s s' v t :
  schedule_entry self mask2 b oam B s v t = Ok s' →
  progress s'
  = (count s + 1,
     fusion_calls s ++
       if with_coattention self
          && bool_decide (0 ≤ count s < Z.of_nat (length (c_layer self)))
       then [CallCLayer (count s)] else []).
Proof.
  unfold schedule_entry. intros Hs'.
  destruct (negb (bool_decide (fixed_t_layer self ≤ t))); [done|].
  destruct (negb (bool_decide (fixed_v_layer self ≤ v))); [done|].
  match type of Hs' with
  | context [reshape_batches self B ?s1] =>
    destruct (reshape_batches self B s1) as [s2|] eqn:H2; [|done];
    assert (H1 : progress s1 = progress s)
  end.
  { now rewrite visual_loop_segment, run_v_layers_progress,
      frozen_visual_loop_progress, text_loop_segment, run_layers_progress,
      frozen_text_loop_progress. }
  apply reshape_batches_progress in H2. cbn in Hs'. injection Hs' as <-.
  assert (H3 : progress s2 = progress s) by congruence.
  injection H3 as Hc Hf.
  destruct (with_coattention self); cbn [andb].
  - pose proof (fusion_loop_progress (c_layer self) 0 s2) as H4.
    injection H4 as Hc4 Hf4.
    unfold fusion_calls in *. cbn. rewrite Hc4, Hf4, Hc, Hf.
    now rewrite Z.add_0_l.
  - unfold fusion_calls in *. cbn. now rewrite Hc, Hf, app_nil_r.
Qed.

Lemma schedule_loop_progress (B : nat) schedule s s' (k : nat) :
  count s = Z.of_nat k →
  schedule_loop self mask2 b oam B schedule s = Ok s' →
  progress s'
  = (Z.of_nat (k + length schedule),
     fusion_calls s ++
       if with_coattention self
       then (λ j, CallCLayer (Z.of_nat j))
              <$> seq k (Nat.min (k + length schedule)
                           (length (c_layer self)) - k)
       else []).
Proof.
  revert s k. induction schedule as [|[v t] schedule IH]; intros s k Hk Hs';
    cbn in Hs'.
  - injection Hs' as <-. cbn [length]. rewrite Nat.add_0_r, Hk.
    replace (k `min` length (c_layer self) - k)%nat with 0%nat by lia.
    cbn. destruct (with_coattention self); now rewrite app_nil_r.
  - destruct (schedule_entry self mask2 b oam B s v t) as [s1|] eqn:H1; [|done].
    cbn in Hs'. apply schedule_entry_progress in H1. injection H1 as Hc1 Hf1.
    rewrite (IH s1 (S k)) by (done || lia).
    cbn [length]. f_equal; [f_equal; lia|].
    rewrite Hf1, <- app_assoc. f_equal.
    destruct (with_coattention self); cbn [andb]; [|done].
    case_bool_decide as Hin.
    + replace ((k + S (length schedule)) `min` length (c_layer self) - k)%nat
        with (S ((S k + length schedule) `min` length (c_layer self) - S k))
        by lia.
      cbn. now rewrite Hk.
    + replace ((k + S (length schedule)) `min` length (c_layer self) - k)%nat
        with 0%nat by lia.
      replace ((S k + length schedule) `min` length (c_layer self) - S k)%nat
        with 0%nat by lia.
      done.
Qed.

(** X6.  In a forward pass that returns, the fusion blocks called are, in
    this order, those of index 0, 1, ... up to the number of entries of the
    zipped schedule (or the size of the stack of fusion blocks, if smaller):
    each once, and none when [with_coattention] is off. *)
Theorem fusion_blocks_are_called_once_each_in_order
    (txt0 img0 : list Slice) (tm im : Mask) (co : CoMask) (s : Locals) :
  BertEncoder_run self mask2 b oam txt0 img0 tm im co = Ok s →
  filter (λ c, is_fusion_call c = true) (calls s)
  = if with_coattention self
    then (λ j, CallCLayer (Z.of_nat j))
           <$> seq 0 (Nat.min
                        (length (zip (v_biattention_id self)
                                   (t_biattention_id self)))
                        (length (c_layer self)))
    else [].
Proof.
  unfold BertEncoder_run. intros Hs.
  destruct (schedule_loop _ _ _ _ _ _ _) as [s1|] eqn:H1; [|done].
  cbn in Hs. injection Hs as <-.
  apply (schedule_loop_progress _ _ _ _ 0) in H1; [|done].
  injection H1 as _ Hf. cbn in Hf. rewrite Nat.sub_0_r in Hf.
  change (filter _ (calls (finish b (run_tail self mask2 oam s1))))
    with (fusion_calls (run_tail self mask2 oam s1)).
  unfold run_tail.
  rewrite tail_text_loop_segment, tail_visual_loop_segment.
  pose proof (run_layers_progress) as Ht.
  pose proof (run_v_layers_progress) as Hv.
  match goal with
  | |- fusion_calls (run_layers oam ?l1 ?i1 (run_v_layers mask2 oam ?l2 ?i2 s1)) = _ =>
    specialize (Ht l1 i1 (run_v_layers mask2 oam l2 i2 s1));
    specialize (Hv l2 i2 s1)
  end.
  injection Ht as _ ->. injection Hv as _ ->. exact Hf.
Qed.

End FusionCalls.
